(** * Nuitka: code-generation contexts and built-in type nodes

    A shallow embedding of [nuitka/codegen/Contexts.py] and
    [nuitka/nodes/BuiltinTypeNodes.py].

    Python objects become records and inductive types, a method that
    may raise returns a value of [py], dictionaries are stdpp [gmap]s,
    and the trace collection that the optimisation nodes talk to is an
    interface (a type class) threaded through the calls as explicit
    state. *)

From Stdlib Require Import ZArith String List.
From stdpp Require Import base option list strings pretty gmap sorting.

Set Warnings "-register-all,-clear-no-such-hyp".

Local Open Scope string_scope.
Local Open Scope Z_scope.

(** ** Python values and exceptions *)

(** The exceptions this code can raise: a method looked up on a class
    that does not define it, and a failed [assert]. *)
Inductive exception : Type :=
| AttributeError (class_name attribute : string)
| AssertionError.

Inductive py (A : Type) : Type :=
| Return (a : A)
| Raise (e : exception).
Arguments Return {A} a.
Arguments Raise {A} e.

#[global] Instance py_ret : MRet py := fun A a => Return a.

#[global] Instance py_bind : MBind py := fun A B k m =>
  match m with
  | Return a => k a
  | Raise e => Raise e
  end.

(** Compile-time constants, as far as the constant pool sees them. *)
Inductive constant : Type :=
| PyNone
| PyBool (b : bool)
| PyEllipsis
| PyInt (z : Z)
| PyStr (s : string)
| PyBytes (s : string)
| PyTuple (items : list constant)
| PyList (items : list constant)
| PyDict (items : list (constant * constant)).

(** [type( constant )] *)
Inductive pytype : Type :=
| NoneType | bool_type | ellipsis_type | int_type | str_type | bytes_type
| tuple_type | list_type | dict_type.

Definition type (c : constant) : pytype :=
  match c with
  | PyNone => NoneType
  | PyBool _ => bool_type
  | PyEllipsis => ellipsis_type
  | PyInt _ => int_type
  | PyStr _ => str_type
  | PyBytes _ => bytes_type
  | PyTuple _ => tuple_type
  | PyList _ => list_type
  | PyDict _ => dict_type
  end.

(** ** Identifiers

    [codegen/Identifiers.py] supplies the handle classes; a handle is
    the class together with the arguments the context passed to it. *)
Inductive identifier : Type :=
| Identifier (code : string) (ref_count : Z)
| ConstantIdentifier (constant_code : string) (constant_value : constant)
| TempObjectIdentifier (var_name : string) (from_context : string)
| LocalVariableIdentifier (var_name : string) (from_context : bool)
| ClosureVariableIdentifier (var_name : string) (from_context : string).

(** Modelled from the spec: [LocalVariableIdentifier.__init__] is in
    [Identifiers.py]; the class context calls it without [from_context],
    and the spec gives a class body a direct stack slot. *)
Definition LocalVariableIdentifier_default_from_context : bool := false.

(** Python truth value of a string. *)
Definition str_truth (s : string) : bool :=
  match s with
  | EmptyString => false
  | String _ _ => true
  end.

(** Whether a handle is reached through a context object: the truth
    value of its [from_context] argument. *)
Definition requiresIndirection (h : identifier) : bool :=
  match h with
  | Identifier _ _ => false
  | ConstantIdentifier _ _ => false
  | TempObjectIdentifier _ from_context => str_truth from_context
  | LocalVariableIdentifier _ from_context => from_context
  | ClosureVariableIdentifier _ from_context => str_truth from_context
  end.

Definition indirection (r : py identifier) : option bool :=
  match r with
  | Return h => Some (requiresIndirection h)
  | Raise _ => None
  end.

(** ** Program-tree nodes the contexts consult *)

Record function_node : Type := {
  function_getName : string;
  function_getCodeName : string;
  function_isGenerator : bool;
  function_hasLocalsDict : bool;
  function_needsFrameExceptionKeeper : bool;
  function_getLocalVariableNames : list string;
  function_getClosureVariableNames : list string
}.

Record contraction_node : Type := {
  contraction_getName : string
}.

Record class_node : Type := {
  class_getName : string;
  class_getCodeName : string;
  class_hasLocalsDict : bool;
  class_needsFrameExceptionKeeper : bool;
  class_getClassVariableNames : list string;
  class_getClosureVariableNames : list string
}.

(** ** The base of all contexts

    [PythonContextBase] holds the counters that number the loops and
    blocks of one scope. *)
Record PythonContextBase : Type := {
  while_loop_count : Z;
  for_loop_count : Z;
  try_count : Z;
  with_count : Z
}.

Definition PythonContextBase_init : PythonContextBase :=
  {| while_loop_count := 0; for_loop_count := 0; try_count := 0; with_count := 0 |}.

Definition allocateForLoopNumber (self : PythonContextBase) : Z * PythonContextBase :=
  let self :=
    {| while_loop_count := while_loop_count self;
       for_loop_count := for_loop_count self + 1;
       try_count := try_count self; with_count := with_count self |} in
  (for_loop_count self, self).

Definition allocateWhileLoopNumber (self : PythonContextBase) : Z * PythonContextBase :=
  let self :=
    {| while_loop_count := while_loop_count self + 1;
       for_loop_count := for_loop_count self;
       try_count := try_count self; with_count := with_count self |} in
  (while_loop_count self, self).

Definition allocateTryNumber (self : PythonContextBase) : Z * PythonContextBase :=
  let self :=
    {| while_loop_count := while_loop_count self;
       for_loop_count := for_loop_count self;
       try_count := try_count self + 1; with_count := with_count self |} in
  (try_count self, self).

Definition allocateWithNumber (self : PythonContextBase) : Z * PythonContextBase :=
  let self :=
    {| while_loop_count := while_loop_count self;
       for_loop_count := for_loop_count self;
       try_count := try_count self; with_count := with_count self + 1 |} in
  (with_count self, self).

(** ** Module context *)

Record PythonModuleContext : Type := {
  base : PythonContextBase;
  name : string;
  code_name : string;
  filename : string;
  class_codes : gmap string (string * string);
  function_codes : gmap string (string * string);
  contraction_codes : gmap string (string * string);
  global_var_names : gset string;
  temp_var_names : gset string
}.

Definition PythonModuleContext_init (module_name code_name filename : string)
  : PythonModuleContext :=
  {| base := PythonContextBase_init;
     name := module_name; code_name := code_name; filename := filename;
     class_codes := ∅; function_codes := ∅; contraction_codes := ∅;
     global_var_names := ∅; temp_var_names := ∅ |}.

(** [self.function_codes[ ... ] = ...] and its two siblings write one
    dictionary of the context. *)
Definition set_function_codes (m : PythonModuleContext)
  (d : gmap string (string * string)) : PythonModuleContext :=
  {| base := base m;
     name := name m; code_name := code_name m; filename := filename m;
     class_codes := class_codes m; function_codes := d;
     contraction_codes := contraction_codes m;
     global_var_names := global_var_names m;
     temp_var_names := temp_var_names m |}.

Definition set_contraction_codes (m : PythonModuleContext)
  (d : gmap string (string * string)) : PythonModuleContext :=
  {| base := base m;
     name := name m; code_name := code_name m; filename := filename m;
     class_codes := class_codes m; function_codes := function_codes m;
     contraction_codes := d;
     global_var_names := global_var_names m;
     temp_var_names := temp_var_names m |}.

Definition set_class_codes (m : PythonModuleContext)
  (d : gmap string (string * string)) : PythonModuleContext :=
  {| base := base m;
     name := name m; code_name := code_name m; filename := filename m;
     class_codes := d; function_codes := function_codes m;
     contraction_codes := contraction_codes m;
     global_var_names := global_var_names m;
     temp_var_names := temp_var_names m |}.

Definition addGlobalVariableNameUsage (m : PythonModuleContext) (var_name : string)
  : PythonModuleContext :=
  {| base := base m;
     name := name m; code_name := code_name m; filename := filename m;
     class_codes := class_codes m; function_codes := function_codes m;
     contraction_codes := contraction_codes m;
     global_var_names := {[ var_name ]} ∪ global_var_names m;
     temp_var_names := temp_var_names m |}.

(** [assert cond]: raises when the condition is false. *)
Definition assert (cond : bool) : py unit :=
  if cond then Return tt else Raise AssertionError.

(** [code_name not in d] *)
Definition not_in (code_name : string) (d : gmap string (string * string)) : bool :=
  match d !! code_name with
  | Some _ => false
  | None => true
  end.

Definition addFunctionCodes (self : PythonModuleContext)
  (code_name function_decl function_code : string) : py PythonModuleContext :=
  _ ← assert (not_in code_name (function_codes self));
  Return (set_function_codes self
            (<[code_name := (function_decl, function_code)]> (function_codes self))).

Definition getFunctionsCodes (self : PythonModuleContext) := function_codes self.

Definition addContractionCodes (self : PythonModuleContext)
  (code_name contraction_decl contraction_code : string) : py PythonModuleContext :=
  _ ← assert (not_in code_name (contraction_codes self));
  Return (set_contraction_codes self
            (<[code_name := (contraction_decl, contraction_code)]> (contraction_codes self))).

Definition getContractionsCodes (self : PythonModuleContext) := contraction_codes self.

Definition addClassCodes (self : PythonModuleContext)
  (code_name class_decl class_code : string) : py PythonModuleContext :=
  _ ← assert (not_in code_name (class_codes self));
  Return (set_class_codes self
            (<[code_name := (class_decl, class_code)]> (class_codes self))).

Definition getClassesCodes (self : PythonModuleContext) := class_codes self.

(** ** The context hierarchy

    A context below the module holds its parent; the classes of
    [Contexts.py] are the constructors. *)
Inductive context : Type :=
| OfModule (module : PythonModuleContext)
| PythonFunctionContext (parent : context) (function : function_node)
| PythonListContractionContext (parent : context) (contraction : contraction_node)
| PythonGeneratorExpressionContext (parent : context) (contraction : contraction_node)
| PythonSetContractionContext (parent : context) (contraction : contraction_node)
| PythonDictContractionContext (parent : context) (contraction : contraction_node)
| PythonClassContext (parent : context) (class_def : class_node)
| PythonExecInlineContext (parent : context).

Definition class_name_of (self : context) : string :=
  match self with
  | OfModule _ => "PythonModuleContext"
  | PythonFunctionContext _ _ => "PythonFunctionContext"
  | PythonListContractionContext _ _ => "PythonListContractionContext"
  | PythonGeneratorExpressionContext _ _ => "PythonGeneratorExpressionContext"
  | PythonSetContractionContext _ _ => "PythonSetContractionContext"
  | PythonDictContractionContext _ _ => "PythonDictContractionContext"
  | PythonClassContext _ _ => "PythonClassContext"
  | PythonExecInlineContext _ => "PythonExecInlineContext"
  end.

Definition getParent (self : context) : option context :=
  match self with
  | OfModule _ => None
  | PythonFunctionContext parent _ => Some parent
  | PythonListContractionContext parent _ => Some parent
  | PythonGeneratorExpressionContext parent _ => Some parent
  | PythonSetContractionContext parent _ => Some parent
  | PythonDictContractionContext parent _ => Some parent
  | PythonClassContext parent _ => Some parent
  | PythonExecInlineContext parent => Some parent
  end.

(** Each class's own methods come first, the dispatch on the class of
    [self] after them. *)
Definition PythonFunctionContext_getLocalHandle (function : function_node)
  (var_name : string) : identifier :=
  LocalVariableIdentifier var_name (function_isGenerator function).

Definition PythonFunctionContext_getClosureHandle (function : function_node)
  (var_name : string) : identifier :=
  if negb (function_isGenerator function)
  then ClosureVariableIdentifier var_name "_python_context->"
  else ClosureVariableIdentifier var_name "_python_context->common_context->".

Definition PythonFunctionContext_getTempHandle (function : function_node)
  (var_name : string) : identifier :=
  if function_isGenerator function
  then TempObjectIdentifier var_name "_python_context->"
  else TempObjectIdentifier var_name "".

Definition PythonListContractionContext_getClosureHandle (var_name : string)
  : identifier :=
  ClosureVariableIdentifier var_name "".

Definition PythonListContractionContext_getLocalHandle (var_name : string)
  : identifier :=
  PythonListContractionContext_getClosureHandle var_name.

Definition PythonSetContractionContext_getClosureHandle (var_name : string)
  : identifier :=
  ClosureVariableIdentifier var_name "".

Definition PythonSetContractionContext_getLocalHandle (var_name : string)
  : identifier :=
  LocalVariableIdentifier var_name false.

Definition PythonDictContractionContext_getClosureHandle (var_name : string)
  : identifier :=
  ClosureVariableIdentifier var_name "".

Definition PythonDictContractionContext_getLocalHandle (var_name : string)
  : identifier :=
  LocalVariableIdentifier var_name false.

Fixpoint getLocalHandle (self : context) (var_name : string) : py identifier :=
  match self with
  | OfModule _ => Raise (AttributeError (class_name_of self) "getLocalHandle")
  | PythonFunctionContext _ function =>
      Return (PythonFunctionContext_getLocalHandle function var_name)
  | PythonListContractionContext _ _ =>
      Return (PythonListContractionContext_getLocalHandle var_name)
  | PythonGeneratorExpressionContext _ _ =>
      Return (LocalVariableIdentifier var_name true)
  | PythonSetContractionContext _ _ =>
      Return (PythonSetContractionContext_getLocalHandle var_name)
  | PythonDictContractionContext _ _ =>
      Return (PythonDictContractionContext_getLocalHandle var_name)
  | PythonClassContext _ _ =>
      Return (LocalVariableIdentifier var_name
                LocalVariableIdentifier_default_from_context)
  | PythonExecInlineContext parent => getLocalHandle parent var_name
  end.

Definition getClosureHandle (self : context) (var_name : string) : py identifier :=
  match self with
  | OfModule _ => Raise (AttributeError (class_name_of self) "getClosureHandle")
  | PythonFunctionContext _ function =>
      Return (PythonFunctionContext_getClosureHandle function var_name)
  | PythonListContractionContext _ _ =>
      Return (PythonListContractionContext_getClosureHandle var_name)
  | PythonGeneratorExpressionContext _ _ =>
      Return (ClosureVariableIdentifier var_name "_python_context->")
  | PythonSetContractionContext _ _ =>
      Return (PythonSetContractionContext_getClosureHandle var_name)
  | PythonDictContractionContext _ _ =>
      Return (PythonDictContractionContext_getClosureHandle var_name)
  | PythonClassContext _ _ =>
      Return (ClosureVariableIdentifier var_name "")
  | PythonExecInlineContext parent => getLocalHandle parent var_name
  end.

(** [PythonContextBase.getTempHandle], overridden by the function and
    the generator-expression contexts. *)
Definition getTempHandle (self : context) (var_name : string) : py identifier :=
  match self with
  | PythonFunctionContext _ function =>
      Return (PythonFunctionContext_getTempHandle function var_name)
  | PythonGeneratorExpressionContext _ _ =>
      Return (TempObjectIdentifier var_name "_python_context->")
  | _ => Return (TempObjectIdentifier var_name "")
  end.

Fixpoint canHaveLocalVariables (self : context) : py bool :=
  match self with
  | OfModule _ => Return false
  | PythonFunctionContext _ _ => Return true
  | PythonExecInlineContext parent => canHaveLocalVariables parent
  | _ => Raise (AttributeError (class_name_of self) "canHaveLocalVariables")
  end.

Fixpoint hasLocalsDict (self : context) : py bool :=
  match self with
  | PythonFunctionContext _ function => Return (function_hasLocalsDict function)
  | PythonClassContext _ class_def => Return (class_hasLocalsDict class_def)
  | PythonExecInlineContext parent => hasLocalsDict parent
  | _ => Return false
  end.

Definition hasFrameGuard (self : context) : py bool :=
  match self with
  | OfModule _ => Return true
  | PythonFunctionContext _ function => Return (negb (function_isGenerator function))
  | PythonListContractionContext _ _ => Return true
  | PythonGeneratorExpressionContext _ _ => Return false
  | PythonSetContractionContext _ _ => Return true
  | PythonDictContractionContext _ _ => Return true
  | PythonClassContext _ _ => Return true
  | PythonExecInlineContext _ => Raise (AttributeError (class_name_of self) "hasFrameGuard")
  end.

Definition isClosureViaContext (self : context) : bool :=
  match self with
  | PythonListContractionContext _ _ => false
  | PythonGeneratorExpressionContext _ _ => false
  | PythonSetContractionContext _ _ => false
  | PythonDictContractionContext _ _ => false
  | PythonClassContext _ _ => false
  | _ => true
  end.

Definition isParametersViaContext (self : context) : bool :=
  match self with
  | PythonFunctionContext _ function => function_isGenerator function
  | _ => false
  end.

(** ** The constant pool, [PythonGlobalContext] *)

#[global] Instance pytype_eq_dec : EqDecision pytype.
Proof. solve_decision. Defined.

Definition pytype_to_nat (t : pytype) : nat :=
  match t with
  | NoneType => 0 | bool_type => 1 | ellipsis_type => 2 | int_type => 3
  | str_type => 4 | bytes_type => 5 | tuple_type => 6 | list_type => 7
  | dict_type => 8
  end%nat.

Definition pytype_of_nat (n : nat) : option pytype :=
  match n with
  | 0 => Some NoneType | 1 => Some bool_type | 2 => Some ellipsis_type
  | 3 => Some int_type | 4 => Some str_type | 5 => Some bytes_type
  | 6 => Some tuple_type | 7 => Some list_type | 8 => Some dict_type
  | _ => None
  end%nat.

#[global] Instance pytype_countable : Countable pytype.
Proof.
  apply (inj_countable pytype_to_nat pytype_of_nat).
  intros []; reflexivity.
Defined.

(** [Constants.HashableConstant] and [Namify.namifyConstant] live in
    modules outside this file: the pool is written over any
    normalisation into a hashable value and any naming function. *)
Class ConstantKeys : Type := {
  hashable : Type;
  hashable_eq_dec :: EqDecision hashable;
  hashable_countable :: Countable hashable;
  HashableConstant : constant -> hashable;
  namifyConstant : constant -> string
}.

Section Pool.
Context {keys : ConstantKeys}.

Record PythonGlobalContext : Type := {
  constants : gmap (pytype * hashable) string;
  eval_orders_used : gset Z
}.

(** [key = ( type( constant ), HashableConstant( constant ) )] *)
Definition key (constant : constant) : pytype * hashable :=
  (type constant, HashableConstant constant).

Definition getConstantHandle (self : PythonGlobalContext) (constant : constant)
  : identifier * PythonGlobalContext :=
  match constant with
  | PyNone => (Identifier "Py_None" 0, self)
  | PyBool true => (Identifier "Py_True" 0, self)
  | PyBool false => (Identifier "Py_False" 0, self)
  | PyEllipsis => (Identifier "Py_Ellipsis" 0, self)
  | _ =>
      let key := key constant in
      let self' :=
        match constants self !! key with
        | None =>
            {| constants :=
                 <[key := "_python_" ++ namifyConstant constant]> (constants self);
               eval_orders_used := eval_orders_used self |}
        | Some _ => self
        end in
      (ConstantIdentifier (constants self' !!! key) constant, self')
  end.

(** A run of [getConstantHandle] calls whose handles are dropped. *)
Definition internAll (cs : list constant) (self : PythonGlobalContext)
  : PythonGlobalContext :=
  fold_left (fun pool c => (getConstantHandle pool c).2) cs self.

(** The literal [b""]: a [str] under Python 2, a [bytes] under
    Python 3. *)
Definition bytes_literal (python_version : Z) (s : string) : constant :=
  if python_version <? 300 then PyStr s else PyBytes s.

(** The arguments of the [getConstantHandle] calls of [__init__], in
    the order they are made. *)
Definition always_needed (python_version : Z) : list constant :=
  [ PyTuple []; PyDict []; PyStr ""; PyBool true; PyBool false; PyInt 0;
    bytes_literal python_version "";
    PyStr "__module__"; PyStr "__class__"; PyStr "__dict__"; PyStr "__doc__";
    PyStr "__file__"; PyStr "__enter__"; PyStr "__exit__";
    PyStr "__builtins__"; PyStr "__cached__";
    PyStr "inspect";
    PyStr "compile"; PyStr "range"; PyStr "open"; PyStr "print";
    PyStr "__import__";
    PyStr "end"; PyStr "file";
    PyStr "read"; PyStr "strip" ].

(** [self.eval_orders_used = ...] *)
Definition set_eval_orders_used (self : PythonGlobalContext) (orders : gset Z)
  : PythonGlobalContext :=
  {| constants := constants self; eval_orders_used := orders |}.

Definition PythonGlobalContext_init (python_version : Z) : PythonGlobalContext :=
  let self := {| constants := ∅; eval_orders_used := ∅ |} in
  let self := internAll (always_needed python_version) self in
  set_eval_orders_used self (list_to_set [2; 3; 4; 5]).

(** The order [sorted( ..., key = lambda x: x[1] )] sorts by. *)
Definition by_name (x y : pytype * hashable * string) : Prop :=
  Is_true (String.leb x.2 y.2).

#[global] Instance by_name_dec x y : Decision (by_name x y).
Proof. unfold by_name. apply _. Defined.

(** The items of the table sorted by handle name.  Which of two
    entries of equal name comes first is left to the map. *)
Definition getConstants (self : PythonGlobalContext)
  : list (pytype * hashable * string) :=
  merge_sort by_name (map_to_list (constants self)).



(** The table holds no key of type [bool]. *)
Definition no_bool_key (self : PythonGlobalContext) : Prop :=
  forall h, constants self !! (bool_type, h) = None.

(** The name a handle carries. *)
Definition handle_name (h : identifier) : string :=
  match h with
  | Identifier code _ => code
  | ConstantIdentifier constant_code _ => constant_code
  | TempObjectIdentifier var_name _ => var_name
  | LocalVariableIdentifier var_name _ => var_name
  | ClosureVariableIdentifier var_name _ => var_name
  end.
End Pool.

(** ** Built-in type nodes *)

(** The expression nodes: the classes of [BuiltinTypeNodes.py], and the
    kinds of children they are built over.  [ExpressionBuiltinStr_py2]
    is the class [ExpressionBuiltinStr] of the branch
    [python_version < 300], a single-argument node derived from
    [ExpressionBuiltinTypeBase]; [ExpressionBuiltinStr] is the one of
    the other branch, derived from [ExpressionBuiltinUnicodeBase]. *)
Inductive expr : Type :=
| ExpressionVariableRef (variable_name : string)
| ExpressionConstantRef (constant : constant)
| ExpressionConstantXrangeRef (low high step : Z)
| ExpressionSideEffects (side_effects : list expr) (expression : expr)
| ExpressionBuiltinTuple (value : option expr)
| ExpressionBuiltinList (value : option expr)
| ExpressionBuiltinSet (value : option expr)
| ExpressionBuiltinFrozenset (value : option expr)
| ExpressionBuiltinFloat (value : expr)
| ExpressionBuiltinBool (value : option expr)
| ExpressionBuiltinStr_py2 (value : option expr)
| ExpressionBuiltinUnicode (value encoding errors : option expr)
| ExpressionBuiltinStr (value encoding errors : option expr)
| ExpressionBuiltinBytes (value encoding errors : option expr)
| ExpressionBuiltinBytearray1 (value : option expr)
| ExpressionBuiltinBytearray3 (string encoding errors : option expr)
| ExpressionBuiltinComplex (real imag : option expr).

Definition isExpressionConstantXrangeRef (node : expr) : bool :=
  match node with
  | ExpressionConstantXrangeRef _ _ _ => true
  | _ => false
  end.

(** The child getters; a class without the child has no such getter. *)
Definition getValue (self : expr) : option expr :=
  match self with
  | ExpressionBuiltinTuple value => value
  | ExpressionBuiltinList value => value
  | ExpressionBuiltinSet value => value
  | ExpressionBuiltinFrozenset value => value
  | ExpressionBuiltinFloat value => Some value
  | ExpressionBuiltinBool value => value
  | ExpressionBuiltinStr_py2 value => value
  | ExpressionBuiltinUnicode value _ _ => value
  | ExpressionBuiltinStr value _ _ => value
  | ExpressionBuiltinBytes value _ _ => value
  | ExpressionBuiltinBytearray1 value => value
  | _ => None
  end.

Definition getEncoding (self : expr) : option expr :=
  match self with
  | ExpressionBuiltinUnicode _ encoding _ => encoding
  | ExpressionBuiltinStr _ encoding _ => encoding
  | ExpressionBuiltinBytes _ encoding _ => encoding
  | ExpressionBuiltinBytearray3 _ encoding _ => encoding
  | _ => None
  end.

Definition getErrors (self : expr) : option expr :=
  match self with
  | ExpressionBuiltinUnicode _ _ errors => errors
  | ExpressionBuiltinStr _ _ errors => errors
  | ExpressionBuiltinBytes _ _ errors => errors
  | ExpressionBuiltinBytearray3 _ _ errors => errors
  | _ => None
  end.



(** The classes derived from [ExpressionBuiltinContainerBase]. *)
Definition isContainerNode (self : expr) : bool :=
  match self with
  | ExpressionBuiltinTuple _ | ExpressionBuiltinList _
  | ExpressionBuiltinSet _ | ExpressionBuiltinFrozenset _ => true
  | _ => false
  end.


(** What [computeExpression] returns:
    [(new_node, change_tags, change_desc)]. *)
Definition result : Type := expr * option string * option string.

Inductive exception_class : Type := BaseException.

(** The trace collection, as far as these nodes use it.  Each method
    returns nothing and updates the collection. *)
Class TraceCollection (T : Type) : Type := {
  removeKnowledge : option expr -> T -> T;
  onControlFlowEscape : expr -> T -> T;
  onExceptionRaiseExit : exception_class -> T -> T
}.

(** What the nodes use of [ExpressionBases.py], [NodeMakingHelpers.py]
    and the classes of their children, none of them in this file. *)
Class ExpressionBases (T : Type) : Type := {
  computeBuiltinSpec : expr -> T -> list (option expr) -> result * T;
  ExpressionBuiltinSingleArgBase_computeExpression : expr -> T -> result * T;
  computeExpressionFloat : expr -> expr -> T -> result * T;
  getIterationLength : expr -> Z;
  getTruthValue : expr -> option bool;
  makeConstantReplacementNode : constant -> expr -> expr;
  wrapExpressionWithNodeSideEffects : expr -> expr -> expr
}.

(** [while args and args[-1] is None: del args[-1]], with the number
    of rounds bounded by [fuel]. *)
Fixpoint drop_trailing_none_loop (fuel : nat) (args : list (option expr))
  : list (option expr) :=
  match fuel with
  | O => args
  | S fuel =>
      match last args with
      | Some None => drop_trailing_none_loop fuel (removelast args)
      | _ => args
      end
  end.

(** Each round deletes one element, so the length of the list is
    fuel enough. *)
Definition drop_trailing_none (args : list (option expr)) : list (option expr) :=
  drop_trailing_none_loop (length args) args.

Section Nodes.
Context {T : Type} {trace : TraceCollection T} {bases : ExpressionBases T}.

Definition ExpressionBuiltinContainerBase_computeExpression
  (self : expr) (trace_collection : T) : result * T :=
  match getValue self with
  | None => computeBuiltinSpec self trace_collection []
  | Some value =>
      if isExpressionConstantXrangeRef value then
        if getIterationLength value <=? 256
        then computeBuiltinSpec self trace_collection [Some value]
        else ((self, None, None), trace_collection)
      else computeBuiltinSpec self trace_collection [Some value]
  end.

Definition ExpressionBuiltinTypeBase_computeExpression
  (self : expr) (trace_collection : T) : result * T :=
  ExpressionBuiltinSingleArgBase_computeExpression self trace_collection.

Definition ExpressionBuiltinFloat_computeExpression
  (self : expr) (trace_collection : T) : result * T :=
  match self with
  | ExpressionBuiltinFloat subnode_value =>
      computeExpressionFloat subnode_value self trace_collection
  | _ => ((self, None, None), trace_collection)
  end.

Definition ExpressionBuiltinBool_computeExpression
  (self : expr) (trace_collection : T) : result * T :=
  let generic :=
    ExpressionBuiltinTypeBase_computeExpression self trace_collection in
  match getValue self with
  | Some value =>
      match getTruthValue value with
      | Some truth_value =>
          let result :=
            wrapExpressionWithNodeSideEffects
              (makeConstantReplacementNode (PyBool truth_value) self)
              value in
          ((result, Some "new_constant",
            Some "Predicted truth value of built-in bool argument"),
           trace_collection)
      | None => generic
      end
  | None => generic
  end.

Definition ExpressionBuiltinUnicodeBase_computeExpression
  (self : expr) (trace_collection : T) : result * T :=
  let args := [getValue self; getEncoding self; getErrors self] in
  let args := drop_trailing_none args in
  let trace_collection :=
    fold_left (fun tc arg => removeKnowledge arg tc) args trace_collection in
  let trace_collection := onControlFlowEscape self trace_collection in
  computeBuiltinSpec self trace_collection args.

Definition ExpressionBuiltinBytearray3_computeExpression
  (self : expr) (trace_collection : T) : result * T :=
  let trace_collection := onExceptionRaiseExit BaseException trace_collection in
  ((self, None, None), trace_collection).

End Nodes.

(** ** Fixtures: concrete contexts, keys and collaborators *)

Module Fixtures.

Definition main_module : context :=
  OfModule (PythonModuleContext_init "__main__" "module___main__" "main.py").

Definition plain_function : function_node :=
  {| function_getName := "f"; function_getCodeName := "function_1_f";
     function_isGenerator := false; function_hasLocalsDict := false;
     function_needsFrameExceptionKeeper := false;
     function_getLocalVariableNames := ["x"];
     function_getClosureVariableNames := ["y"] |}.

Definition generator_function : function_node :=
  {| function_getName := "g"; function_getCodeName := "function_2_g";
     function_isGenerator := true; function_hasLocalsDict := false;
     function_needsFrameExceptionKeeper := false;
     function_getLocalVariableNames := ["x"];
     function_getClosureVariableNames := ["y"] |}.

Definition a_contraction : contraction_node :=
  {| contraction_getName := "<setcontraction>" |}.

(** A printable form of a constant. *)
Fixpoint repr (c : constant) : string :=
  match c with
  | PyNone => "None"
  | PyBool true => "True"
  | PyBool false => "False"
  | PyEllipsis => "Ellipsis"
  | PyInt z => pretty z
  | PyStr s => "'" ++ s ++ "'"
  | PyBytes s => "b'" ++ s ++ "'"
  | PyTuple items => "(" ++ String.concat ", " (map repr items) ++ ")"
  | PyList items => "[" ++ String.concat ", " (map repr items) ++ "]"
  | PyDict items =>
      "{" ++ String.concat ", "
               (map (fun kv => repr kv.1 ++ ": " ++ repr kv.2) items) ++ "}"
  end.

(** Keys whose normalised value is the printable form, names made of
    the type and the printable form. *)
#[local] Instance printable_keys : ConstantKeys :=
  {| hashable := string;
     HashableConstant := repr;
     namifyConstant := fun c => pretty (pytype_to_nat (type c)) ++ "_" ++ repr c |}.

(** A trace collection that records the calls made on it. *)
Inductive event : Type :=
| RemoveKnowledge (node : option expr)
| ControlFlowEscape (node : expr)
| ExceptionRaiseExit (exception : exception_class)
| BuiltinSpecConsulted (node : expr) (given_values : list (option expr))
| SingleArgBaseCalled (node : expr).

#[local] Instance recording : TraceCollection (list event) :=
  {| removeKnowledge := fun node log => (log ++ [RemoveKnowledge node])%list;
     onControlFlowEscape := fun node log => (log ++ [ControlFlowEscape node])%list;
     onExceptionRaiseExit := fun exc log => (log ++ [ExceptionRaiseExit exc])%list |}.



(** A builtin spec that leaves every node as it is. *)
#[local] Instance unchanging : ExpressionBases (list event) :=
  {| computeBuiltinSpec := fun self log given_values =>
       ((self, None, None), (log ++ [BuiltinSpecConsulted self given_values])%list);
     ExpressionBuiltinSingleArgBase_computeExpression := fun self log =>
       ((self, None, None), (log ++ [SingleArgBaseCalled self])%list);
     computeExpressionFloat := fun _ float_node log => ((float_node, None, None), log);
     getIterationLength := fun node =>
       match node with
       | ExpressionConstantXrangeRef low high step =>
           if (0 <? step) && (low <? high) then (high - low + step - 1) / step
           else 0
       | _ => 0
       end;
     getTruthValue := fun node =>
       match node with
       | ExpressionConstantRef (PyList []) => Some false
       | ExpressionConstantRef (PyInt z) => Some (negb (z =? 0))
       | _ => None
       end;
     makeConstantReplacementNode := fun constant _ => ExpressionConstantRef constant;
     wrapExpressionWithNodeSideEffects := fun new_node old_node =>
       ExpressionSideEffects [old_node] new_node |}.




Definition tuple_of_long_range : expr :=
  ExpressionBuiltinTuple (Some (ExpressionConstantXrangeRef 0 10000 1)).

Definition tuple_of_short_range : expr :=
  ExpressionBuiltinTuple (Some (ExpressionConstantXrangeRef 0 100 1)).

End Fixtures.

(** ** Statements about the contexts *)

(** The three handles of a context for one name. *)
Definition handles (self : context) (var_name : string) : list (py identifier) :=
  [ getLocalHandle self var_name;
    getClosureHandle self var_name;
    getTempHandle self var_name ].


Definition all_indirect (self : context) (var_name : string) : Prop :=
  Forall (fun r => indirection r = Some true) (handles self var_name).

(** The three kinds of code a module context registers. *)
Inductive code_kind : Type := FunctionCodes | ContractionCodes | ClassCodes.

Definition addCodes (kind : code_kind)
  : PythonModuleContext -> string -> string -> string -> py PythonModuleContext :=
  match kind with
  | FunctionCodes => addFunctionCodes
  | ContractionCodes => addContractionCodes
  | ClassCodes => addClassCodes
  end.

Definition getCodes (kind : code_kind)
  : PythonModuleContext -> gmap string (string * string) :=
  match kind with
  | FunctionCodes => getFunctionsCodes
  | ContractionCodes => getContractionsCodes
  | ClassCodes => getClassesCodes
  end.

(** [n] exec-inline contexts stacked on a context. *)
Fixpoint exec_inline_nest (n : nat) (parent : context) : context :=
  match n with
  | O => parent
  | S n => PythonExecInlineContext (exec_inline_nest n parent)
  end.

(** The object a method was called on, as it is after the call: a call
    that raises before its assignment leaves the object as it was. *)
Definition state_after {A : Type} (before : A) (outcome : py A) : A :=
  match outcome with
  | Return after => after
  | Raise _ => before
  end.

(** The constants that go to the table: all but the four singletons
    [getConstantHandle] answers with a fixed handle. *)
Definition pooled (c : constant) : bool :=
  match c with
  | PyNone | PyBool _ | PyEllipsis => false
  | _ => true
  end.

(** ** Further methods of the contexts *)

(** [getFrameHandle], which the module, function and class contexts
    define. *)
Definition getFrameHandle (self : context) : py identifier :=
  match self with
  | OfModule _ => Return (Identifier "frame_guard.getFrame()" 1)
  | PythonFunctionContext _ function =>
      if function_isGenerator function
      then Return (Identifier "generator->m_frame" 0)
      else Return (Identifier "frame_guard.getFrame()" 1)
  | PythonClassContext _ _ => Return (Identifier "frame_guard.getFrame()" 1)
  | _ => Raise (AttributeError (class_name_of self) "getFrameHandle")
  end.

(** [PythonContractionBase.isGeneratorExpression] *)
Definition isGeneratorExpression (self : context) : py bool :=
  match self with
  | PythonListContractionContext _ _ => Return false
  | PythonGeneratorExpressionContext _ _ => Return true
  | PythonSetContractionContext _ _ => Return false
  | PythonDictContractionContext _ _ => Return false
  | _ => Raise (AttributeError (class_name_of self) "isGeneratorExpression")
  end.

Definition hasLocalVariable (self : context) (var_name : string) : py bool :=
  match self with
  | OfModule _ => Return false
  | PythonFunctionContext _ function =>
      Return (bool_decide (var_name ∈ function_getLocalVariableNames function))
  | PythonClassContext _ class_def =>
      Return (bool_decide (var_name ∈ class_getClassVariableNames class_def))
  | _ => Raise (AttributeError (class_name_of self) "hasLocalVariable")
  end.

Definition hasClosureVariable (self : context) (var_name : string) : py bool :=
  match self with
  | OfModule _ => Return false
  | PythonFunctionContext _ function =>
      Return (bool_decide (var_name ∈ function_getClosureVariableNames function))
  | PythonClassContext _ class_def =>
      Return (bool_decide (var_name ∈ class_getClosureVariableNames class_def))
  | _ => Raise (AttributeError (class_name_of self) "hasClosureVariable")
  end.

(** The module context a chain of parents ends in. *)
Fixpoint module_of (self : context) : PythonModuleContext :=
  match self with
  | OfModule module => module
  | PythonFunctionContext parent _
  | PythonListContractionContext parent _
  | PythonGeneratorExpressionContext parent _
  | PythonSetContractionContext parent _
  | PythonDictContractionContext parent _
  | PythonClassContext parent _
  | PythonExecInlineContext parent => module_of parent
  end.

(** [getModuleName] and [getModuleCodeName]: the module context
    answers, every other context asks its parent. *)
Fixpoint getModuleName (self : context) : string :=
  match self with
  | OfModule module => name module
  | PythonFunctionContext parent _
  | PythonListContractionContext parent _
  | PythonGeneratorExpressionContext parent _
  | PythonSetContractionContext parent _
  | PythonDictContractionContext parent _
  | PythonClassContext parent _
  | PythonExecInlineContext parent => getModuleName parent
  end.

Fixpoint getModuleCodeName (self : context) : string :=
  match self with
  | OfModule module => code_name module
  | PythonFunctionContext parent _
  | PythonListContractionContext parent _
  | PythonGeneratorExpressionContext parent _
  | PythonSetContractionContext parent _
  | PythonDictContractionContext parent _
  | PythonClassContext parent _
  | PythonExecInlineContext parent => getModuleCodeName parent
  end.

(** [addFunctionCodes], [addContractionCodes] and [addClassCodes] on
    any context: the module context registers, every other context
    hands the call to its parent.  The result is the context with its
    chain of parents as the call leaves it. *)
Fixpoint context_addCodes (kind : code_kind) (self : context)
  (code_name decl code : string) : py context :=
  match self with
  | OfModule module =>
      module ← addCodes kind module code_name decl code;
      Return (OfModule module)
  | PythonFunctionContext parent function =>
      parent ← context_addCodes kind parent code_name decl code;
      Return (PythonFunctionContext parent function)
  | PythonListContractionContext parent contraction =>
      parent ← context_addCodes kind parent code_name decl code;
      Return (PythonListContractionContext parent contraction)
  | PythonGeneratorExpressionContext parent contraction =>
      parent ← context_addCodes kind parent code_name decl code;
      Return (PythonGeneratorExpressionContext parent contraction)
  | PythonSetContractionContext parent contraction =>
      parent ← context_addCodes kind parent code_name decl code;
      Return (PythonSetContractionContext parent contraction)
  | PythonDictContractionContext parent contraction =>
      parent ← context_addCodes kind parent code_name decl code;
      Return (PythonDictContractionContext parent contraction)
  | PythonClassContext parent class_def =>
      parent ← context_addCodes kind parent code_name decl code;
      Return (PythonClassContext parent class_def)
  | PythonExecInlineContext parent =>
      parent ← context_addCodes kind parent code_name decl code;
      Return (PythonExecInlineContext parent)
  end.

(** The context [self] with the module context at the end of its chain
    of parents replaced by [module]. *)
Fixpoint replace_module (self : context) (module : PythonModuleContext) : context :=
  match self with
  | OfModule _ => OfModule module
  | PythonFunctionContext parent function =>
      PythonFunctionContext (replace_module parent module) function
  | PythonListContractionContext parent contraction =>
      PythonListContractionContext (replace_module parent module) contraction
  | PythonGeneratorExpressionContext parent contraction =>
      PythonGeneratorExpressionContext (replace_module parent module) contraction
  | PythonSetContractionContext parent contraction =>
      PythonSetContractionContext (replace_module parent module) contraction
  | PythonDictContractionContext parent contraction =>
      PythonDictContractionContext (replace_module parent module) contraction
  | PythonClassContext parent class_def =>
      PythonClassContext (replace_module parent module) class_def
  | PythonExecInlineContext parent =>
      PythonExecInlineContext (replace_module parent module)
  end.

(** A run of registrations of one kind, stopped by the first that
    raises. *)
Fixpoint addCodesAll (kind : code_kind) (entries : list (string * (string * string)))
  (self : PythonModuleContext) : py PythonModuleContext :=
  match entries with
  | [] => Return self
  | (code_name, (decl, code)) :: entries =>
      self ← addCodes kind self code_name decl code;
      addCodesAll kind entries self
  end.

(** The four counters of [PythonContextBase]. *)
Inductive counter_kind : Type := ForLoop | WhileLoop | Try | With.

#[global] Instance counter_kind_eq_dec : EqDecision counter_kind.
Proof. solve_decision. Defined.

#[global] Instance code_kind_eq_dec : EqDecision code_kind.
Proof. solve_decision. Defined.

Definition allocate (kind : counter_kind)
  : PythonContextBase -> Z * PythonContextBase :=
  match kind with
  | ForLoop => allocateForLoopNumber
  | WhileLoop => allocateWhileLoopNumber
  | Try => allocateTryNumber
  | With => allocateWithNumber
  end.

Definition counter (kind : counter_kind) : PythonContextBase -> Z :=
  match kind with
  | ForLoop => for_loop_count
  | WhileLoop => while_loop_count
  | Try => try_count
  | With => with_count
  end.

(** The numbers a run of allocations returns, one per kind asked for,
    and the context after it. *)
Fixpoint allocateAll (kinds : list counter_kind) (self : PythonContextBase)
  : list (counter_kind * Z) * PythonContextBase :=
  match kinds with
  | [] => ([], self)
  | kind :: kinds =>
      let '(number, self) := allocate kind self in
      let '(numbers, self) := allocateAll kinds self in
      ((kind, number) :: numbers, self)
  end.

Section PoolClients.
Context {keys : ConstantKeys}.

(** [getConstantHandle] on any context: every context hands the call
    up, and the module context hands it to its global context. *)
Fixpoint context_getConstantHandle (self : context) (global_context : PythonGlobalContext)
  (constant : constant) : identifier * PythonGlobalContext :=
  match self with
  | OfModule _ => getConstantHandle global_context constant
  | PythonFunctionContext parent _
  | PythonListContractionContext parent _
  | PythonGeneratorExpressionContext parent _
  | PythonSetContractionContext parent _
  | PythonDictContractionContext parent _
  | PythonClassContext parent _
  | PythonExecInlineContext parent =>
      context_getConstantHandle parent global_context constant
  end.

(** [PythonFunctionContext.__init__]: the new context, and the global
    context after the local names were asked for as constants. *)
Definition PythonFunctionContext_init (parent : context) (function : function_node)
  (global_context : PythonGlobalContext) : context * PythonGlobalContext :=
  let self := PythonFunctionContext parent function in
  (self,
   fold_left
     (fun global_context local_name =>
        (context_getConstantHandle self global_context (PyStr local_name)).2)
     (function_getLocalVariableNames function) global_context).


End PoolClients.

Section ContextFacts.

Import Fixtures.

Lemma generator_function_all_indirect parent function var_name :
  function_isGenerator function = true ->
  all_indirect (PythonFunctionContext parent function) var_name.
Proof.
  intros Hgen. unfold all_indirect, handles. cbn.
  unfold PythonFunctionContext_getLocalHandle,
    PythonFunctionContext_getClosureHandle, PythonFunctionContext_getTempHandle.
  rewrite Hgen. cbn. repeat constructor.
Qed.




(** C2, the claim as it is written, at an exec-inline context under an
    ordinary function: the closure handle is the parent's local handle,
    not the parent's closure handle. *)
Lemma exec_inline_closure_is_not_parent_closure :
  getClosureHandle
    (PythonExecInlineContext (PythonFunctionContext main_module plain_function)) "y"
  = Return (LocalVariableIdentifier "y" false) /\
  getClosureHandle
    (PythonExecInlineContext (PythonFunctionContext main_module plain_function)) "y"
  <> getClosureHandle (PythonFunctionContext main_module plain_function) "y".
Proof. split; [reflexivity | discriminate]. Qed.

(** C2, amended: an exec-inline context under [parent] answers
    [getLocalHandle], [canHaveLocalVariables] and [hasLocalsDict] as
    [parent] does, an [AttributeError] of the parent included, and
    answers [getClosureHandle] with the parent's [getLocalHandle]. *)
Theorem exec_inline_delegates parent var_name :
  getLocalHandle (PythonExecInlineContext parent) var_name
    = getLocalHandle parent var_name /\
  getClosureHandle (PythonExecInlineContext parent) var_name
    = getLocalHandle parent var_name /\
  canHaveLocalVariables (PythonExecInlineContext parent)
    = canHaveLocalVariables parent /\
  hasLocalsDict (PythonExecInlineContext parent) = hasLocalsDict parent.
Proof. repeat split. Qed.

(** The same through any number of exec-inline contexts. *)
Lemma exec_inline_nest_delegates n parent var_name :
  getLocalHandle (exec_inline_nest n parent) var_name
    = getLocalHandle parent var_name /\
  canHaveLocalVariables (exec_inline_nest n parent)
    = canHaveLocalVariables parent /\
  hasLocalsDict (exec_inline_nest n parent) = hasLocalsDict parent.
Proof.
  induction n as [| n (Hlocal & Hcan & Hdict)]; [repeat split |].
  cbn [exec_inline_nest getLocalHandle canHaveLocalVariables hasLocalsDict].
  auto.
Qed.

Lemma exec_inline_nest_closure n parent var_name :
  getClosureHandle (exec_inline_nest (S n) parent) var_name
    = getLocalHandle parent var_name.
Proof.
  cbn [exec_inline_nest getClosureHandle].
  apply exec_inline_nest_delegates.
Qed.

(** C3, the claim as it is written, at a set contraction: the local
    handle is a [LocalVariableIdentifier], the closure handle a
    [ClosureVariableIdentifier]. *)
Lemma set_contraction_local_is_not_closure :
  getLocalHandle (PythonSetContractionContext main_module a_contraction) "x"
    = Return (LocalVariableIdentifier "x" false) /\
  getLocalHandle (PythonSetContractionContext main_module a_contraction) "x"
  <> getClosureHandle (PythonSetContractionContext main_module a_contraction) "x".
Proof. split; [reflexivity | discriminate]. Qed.

(** C3, amended: a list contraction context returns its closure handle
    [ClosureVariableIdentifier( var_name, "" )] as the local handle;
    set and dict contraction contexts return
    [LocalVariableIdentifier( var_name, False )] as the local handle and
    [ClosureVariableIdentifier( var_name, "" )] as the closure handle.
    None of these handles goes through a context object. *)
Theorem contraction_context_handles parent contraction var_name :
  (getLocalHandle (PythonListContractionContext parent contraction) var_name
     = getClosureHandle (PythonListContractionContext parent contraction) var_name /\
   getClosureHandle (PythonListContractionContext parent contraction) var_name
     = Return (ClosureVariableIdentifier var_name "")) /\
  (getLocalHandle (PythonSetContractionContext parent contraction) var_name
     = Return (LocalVariableIdentifier var_name false) /\
   getClosureHandle (PythonSetContractionContext parent contraction) var_name
     = Return (ClosureVariableIdentifier var_name "")) /\
  (getLocalHandle (PythonDictContractionContext parent contraction) var_name
     = Return (LocalVariableIdentifier var_name false) /\
   getClosureHandle (PythonDictContractionContext parent contraction) var_name
     = Return (ClosureVariableIdentifier var_name "")) /\
  Forall (fun self =>
            indirection (getLocalHandle self var_name) = Some false /\
            indirection (getClosureHandle self var_name) = Some false)
    [ PythonListContractionContext parent contraction;
      PythonSetContractionContext parent contraction;
      PythonDictContractionContext parent contraction ].
Proof.
  repeat split; repeat constructor.
Qed.

End ContextFacts.

(** ** Statements about code registration *)

Section RegistrationFacts.

Import Fixtures.

Lemma assert_not_in_free code_name (d : gmap string (string * string)) :
  d !! code_name = None -> assert (not_in code_name d) = Return tt.
Proof. intros Hfree. unfold not_in. rewrite Hfree. reflexivity. Qed.

Lemma assert_not_in_taken code_name (d : gmap string (string * string)) pair :
  d !! code_name = Some pair -> assert (not_in code_name d) = Raise AssertionError.
Proof. intros Htaken. unfold not_in. rewrite Htaken. reflexivity. Qed.

Lemma addCodes_free kind (self : PythonModuleContext) code_name decl body :
  getCodes kind self !! code_name = None ->
  exists after,
    addCodes kind self code_name decl body = Return after /\
    getCodes kind after = <[code_name := (decl, body)]> (getCodes kind self).
Proof.
  intros Hfree.
  destruct kind; cbn in Hfree |- *;
    unfold getFunctionsCodes, getContractionsCodes, getClassesCodes in *;
    unfold addFunctionCodes, addContractionCodes, addClassCodes;
    rewrite (assert_not_in_free _ _ Hfree); cbn;
    eexists; split; reflexivity.
Qed.

Lemma addCodes_taken kind (self : PythonModuleContext) code_name decl body stored :
  getCodes kind self !! code_name = Some stored ->
  addCodes kind self code_name decl body = Raise AssertionError.
Proof.
  intros Htaken.
  destruct kind; cbn in Htaken |- *;
    unfold getFunctionsCodes, getContractionsCodes, getClassesCodes in *;
    unfold addFunctionCodes, addContractionCodes, addClassCodes;
    rewrite (assert_not_in_taken _ _ _ Htaken); reflexivity.
Qed.

(** C10: in a module context, for each kind of code, registering under
    a code name that is free returns the context with the pair stored
    under that name, the pairs under other names as they were; and
    registering under a code name that is taken raises
    [AssertionError] and leaves the stored pair in place. *)
Theorem addCodes_registers_once kind (self : PythonModuleContext)
    code_name decl body :
  match getCodes kind self !! code_name with
  | None =>
      exists after,
        addCodes kind self code_name decl body = Return after /\
        getCodes kind after !! code_name = Some (decl, body) /\
        getCodes kind after = <[code_name := (decl, body)]> (getCodes kind self)
  | Some stored =>
      addCodes kind self code_name decl body = Raise AssertionError /\
      getCodes kind
        (state_after self (addCodes kind self code_name decl body)) !! code_name
      = Some stored
  end.
Proof.
  destruct (getCodes kind self !! code_name) as [stored |] eqn:Hlookup.
  - rewrite (addCodes_taken _ _ _ decl body _ Hlookup). cbn. auto.
  - destruct (addCodes_free _ _ _ decl body Hlookup) as (after & Hret & Hcodes).
    exists after. rewrite Hcodes, lookup_insert_eq. auto.
Qed.

(** Registering twice under one name: the second call raises, and the
    first pair stays. *)
Lemma addCodes_twice kind (self after : PythonModuleContext)
    code_name decl body decl' body' :
  addCodes kind self code_name decl body = Return after ->
  addCodes kind after code_name decl' body' = Raise AssertionError /\
  getCodes kind after !! code_name = Some (decl, body).
Proof.
  intros Hfirst.
  destruct (getCodes kind self !! code_name) as [stored |] eqn:Hlookup.
  - rewrite (addCodes_taken _ _ _ decl body _ Hlookup) in Hfirst. discriminate.
  - destruct (addCodes_free _ _ _ decl body Hlookup) as (after' & Hret & Hcodes).
    assert (after' = after) as -> by congruence.
    assert (Hstored : getCodes kind after !! code_name = Some (decl, body))
      by (rewrite Hcodes; apply lookup_insert_eq).
    split; [| exact Hstored].
    exact (addCodes_taken _ _ _ decl' body' _ Hstored).
Qed.

Lemma addCodes_registers_once_witness :
  (exists after,
     addCodes FunctionCodes (PythonModuleContext_init "m" "module_m" "m.py")
       "function_1_f" "decl" "body" = Return after /\
     getCodes FunctionCodes after !! "function_1_f" = Some ("decl", "body") /\
     getCodes FunctionCodes after
     = <["function_1_f" := ("decl", "body")]>
         (getCodes FunctionCodes (PythonModuleContext_init "m" "module_m" "m.py"))).
Proof.
  exact (addCodes_registers_once FunctionCodes
           (PythonModuleContext_init "m" "module_m" "m.py")
           "function_1_f" "decl" "body").
Defined.

End RegistrationFacts.

(** ** Statements about the constant pool *)

Section PoolFacts.

Context {keys : ConstantKeys}.

(** An entry of the table outlives every later call. *)
Lemma getConstantHandle_keeps (self : PythonGlobalContext) c k n :
  constants self !! k = Some n ->
  constants (getConstantHandle self c).2 !! k = Some n.
Proof.
  intros Hentry.
  destruct c as [| [] | | | | | | |]; cbn; try exact Hentry;
    (destruct (constants self !! key _) eqn:Hkey; cbn; [exact Hentry |];
     rewrite lookup_insert_ne; [exact Hentry | intros <-; congruence]).
Qed.

Lemma internAll_keeps cs (self : PythonGlobalContext) k n :
  constants self !! k = Some n ->
  constants (internAll cs self) !! k = Some n.
Proof.
  revert self. induction cs as [| c cs IH]; intros self Hentry; [exact Hentry |].
  cbn. apply IH, getConstantHandle_keeps, Hentry.
Qed.

(** A pooled constant is in the table after its call, under the name
    the handle carries. *)
Lemma getConstantHandle_entry (self : PythonGlobalContext) c :
  pooled c = true ->
  constants (getConstantHandle self c).2 !! key c
  = Some (handle_name (getConstantHandle self c).1).
Proof.
  intros Hpooled.
  destruct c as [| [] | | | | | | |]; try discriminate Hpooled; cbn;
    (destruct (constants self !! key _) as [n |] eqn:Hkey; cbn;
     [ rewrite Hkey; f_equal; unfold lookup_total, map_lookup_total;
       rewrite Hkey; reflexivity
     | rewrite lookup_insert_eq; f_equal; unfold lookup_total, map_lookup_total;
       rewrite lookup_insert_eq; reflexivity ]).
Qed.

(** The handle of a pooled constant whose key is in the table carries
    the name stored there. *)
Lemma getConstantHandle_stored (self : PythonGlobalContext) c n :
  pooled c = true ->
  constants self !! key c = Some n ->
  handle_name (getConstantHandle self c).1 = n.
Proof.
  intros Hpooled Hentry.
  pose proof (getConstantHandle_entry self c Hpooled) as Hafter.
  rewrite (getConstantHandle_keeps self c _ _ Hentry) in Hafter.
  congruence.
Qed.

(** The handle of a singleton does not depend on the pool. *)
Lemma getConstantHandle_singleton (self self' : PythonGlobalContext) c :
  pooled c = false ->
  (getConstantHandle self c).1 = (getConstantHandle self' c).1 /\
  (getConstantHandle self c).2 = self.
Proof. destruct c as [| [] | | | | | | |]; intros Hp; try discriminate Hp; auto. Qed.

(** Constants of equal key are both pooled or the same singleton. *)
Lemma key_eq_singleton v1 v2 :
  HashableConstant (PyBool true) <> HashableConstant (PyBool false) ->
  key v1 = key v2 -> pooled v1 = false -> v1 = v2.
Proof.
  intros Hbool Hkey Hp. unfold key in Hkey.
  destruct v1 as [| b1 | | | | | | |]; try discriminate Hp;
    destruct v2 as [| b2 | | | | | | |]; try discriminate Hkey; try reflexivity.
  destruct b1, b2; try reflexivity; exfalso; apply Hbool; congruence.
Qed.

Lemma key_eq_pooled v1 v2 : key v1 = key v2 -> pooled v1 = pooled v2.
Proof.
  unfold key. intros Hkey.
  destruct v1, v2; try discriminate Hkey; reflexivity.
Qed.

(** C8: two constants of equal key get handles of the same name from
    one pool, whatever calls are made between the two, and a call
    leaves every entry of the table as it was. *)
Theorem getConstantHandle_idempotent (self : PythonGlobalContext)
    v1 v2 between :
  HashableConstant (PyBool true) <> HashableConstant (PyBool false) ->
  key v1 = key v2 ->
  handle_name
    (getConstantHandle (internAll between (getConstantHandle self v1).2) v2).1
  = handle_name (getConstantHandle self v1).1 /\
  (forall c k n,
     constants self !! k = Some n ->
     constants (getConstantHandle self c).2 !! k = Some n).
Proof.
  intros Hbool Hkey. split; [| intros c k n; apply getConstantHandle_keeps].
  destruct (pooled v1) eqn:Hp1.
  - apply getConstantHandle_stored.
    + rewrite <- (key_eq_pooled _ _ Hkey). exact Hp1.
    + rewrite <- Hkey.
      apply internAll_keeps, getConstantHandle_entry, Hp1.
  - rewrite <- (key_eq_singleton _ _ Hbool Hkey Hp1).
    f_equal. apply getConstantHandle_singleton, Hp1.
Qed.

(** No call puts a key of type [bool] into the table. *)
Lemma getConstantHandle_no_bool_key (self : PythonGlobalContext) c :
  no_bool_key self -> no_bool_key (getConstantHandle self c).2.
Proof.
  intros Hno h.
  destruct c as [| [] | | | | | | |]; cbn; try apply Hno;
    (destruct (constants self !! key _); cbn; [apply Hno |];
     rewrite lookup_insert_ne; [apply Hno | discriminate]).
Qed.

Lemma internAll_no_bool_key cs (self : PythonGlobalContext) :
  no_bool_key self -> no_bool_key (internAll cs self).
Proof.
  revert self. induction cs as [| c cs IH]; intros self Hno; [exact Hno |].
  cbn. apply IH, getConstantHandle_no_bool_key, Hno.
Qed.

Lemma internAll_registers cs (self : PythonGlobalContext) c :
  c ∈ cs -> pooled c = true ->
  is_Some (constants (internAll cs self) !! key c).
Proof.
  revert self. induction cs as [| c' cs IH]; intros self Hin Hpooled.
  - inversion Hin.
  - cbn. apply elem_of_cons in Hin as [-> | Hin].
    + eexists. apply internAll_keeps, getConstantHandle_entry, Hpooled.
    + apply IH; assumption.
Qed.

(** [getConstants] lists the entries of the table. *)
Lemma elem_of_getConstants (self : PythonGlobalContext) k n :
  (k, n) ∈ getConstants self <-> constants self !! k = Some n.
Proof.
  unfold getConstants. rewrite merge_sort_Permutation.
  apply elem_of_map_to_list.
Qed.

Lemma constants_set_eval_orders_used (self : PythonGlobalContext) orders :
  constants (set_eval_orders_used self orders) = constants self.
Proof. reflexivity. Qed.

Lemma constants_init python_version :
  constants (PythonGlobalContext_init python_version)
  = constants (internAll (always_needed python_version)
                 {| constants := ∅; eval_orders_used := ∅ |}).
Proof. apply constants_set_eval_orders_used. Qed.

Lemma init_no_bool_key python_version :
  no_bool_key (PythonGlobalContext_init python_version).
Proof.
  intros h. rewrite constants_init.
  refine (internAll_no_bool_key _ _ _ h).
  intros h'. apply lookup_empty.
Qed.

Lemma always_needed_values python_version :
  Forall (fun c => c <> PyNone /\ c <> PyEllipsis) (always_needed python_version).
Proof.
  unfold always_needed, bytes_literal.
  destruct (python_version <? 300); repeat constructor; discriminate.
Qed.

(** C9, amended: of the constants [__init__] asks for, each one but
    [True] and [False] has an entry in the table and so in the list
    [getConstants] returns; [True] and [False] get the fixed handles
    [Py_True] and [Py_False], and no entry. *)
Theorem init_registers_always_needed python_version :
  Forall
    (fun c =>
       match c with
       | PyBool b =>
           (getConstantHandle (PythonGlobalContext_init python_version) c).1
           = Identifier (if b then "Py_True" else "Py_False") 0 /\
           ~ exists n, (key c, n) ∈ getConstants (PythonGlobalContext_init python_version)
       | _ =>
           exists n, (key c, n) ∈ getConstants (PythonGlobalContext_init python_version)
       end)
    (always_needed python_version).
Proof.
  apply Forall_forall. intros c Hin.
  assert (Hentry : pooled c = true ->
            exists n, (key c, n) ∈ getConstants (PythonGlobalContext_init python_version)).
  { intros Hpooled.
    destruct (internAll_registers _ {| constants := ∅; eval_orders_used := ∅ |}
                c Hin Hpooled) as [n Hn].
    exists n. apply elem_of_getConstants. rewrite constants_init. exact Hn. }
  pose proof (proj1 (Forall_forall _ _) (always_needed_values python_version)
                c Hin) as [Hnone Hellipsis].
  destruct c as [| b | | | | | | |]; try (apply Hentry; reflexivity).
  - contradiction.
  - split; [destruct b; reflexivity |].
    intros [n Hn]. apply elem_of_getConstants in Hn.
    unfold key in Hn. cbn [type] in Hn.
    rewrite (init_no_bool_key python_version) in Hn. discriminate Hn.
  - contradiction.
Qed.

End PoolFacts.

(** ** Statements about the built-in type nodes *)

Section TrailingNone.

(** The loop stops on a list that does not end in [None], having
    deleted only [None]s from the end. *)
Lemma drop_trailing_none_loop_spec fuel (args : list (option expr)) :
  (length args <= fuel)%nat ->
  last (drop_trailing_none_loop fuel args) <> Some None /\
  exists dropped,
    args = (drop_trailing_none_loop fuel args ++ replicate dropped None)%list.
Proof.
  revert args. induction fuel as [| fuel IH]; intros args Hlen.
  - destruct args; [| cbn in Hlen; lia].
    split; [discriminate | exists 0%nat; reflexivity].
  - cbn [drop_trailing_none_loop].
    destruct (last args) as [[arg |] |] eqn:Hlast.
    + split; [congruence | exists 0%nat; symmetry; apply app_nil_r].
    + apply last_Some in Hlast as [front ->].
      rewrite removelast_last.
      rewrite length_app in Hlen. cbn in Hlen.
      destruct (IH front ltac:(lia)) as [Hend [dropped Hfront]].
      split; [exact Hend |].
      exists (S dropped).
      rewrite replicate_S_end, app_assoc, <- Hfront. reflexivity.
    + split; [congruence | exists 0%nat; symmetry; apply app_nil_r].
Qed.

Lemma drop_trailing_none_spec (args : list (option expr)) :
  last (drop_trailing_none args) <> Some None /\
  exists dropped,
    args = (drop_trailing_none args ++ replicate dropped None)%list.
Proof. apply drop_trailing_none_loop_spec. reflexivity. Qed.

(** A list that does not end in [None] is left whole. *)
Lemma drop_trailing_none_id (args : list (option expr)) :
  last args <> Some None -> drop_trailing_none args = args.
Proof.
  intros Hend. unfold drop_trailing_none.
  destruct args as [| arg args]; [reflexivity |].
  cbn [length drop_trailing_none_loop].
  destruct (last (arg :: args)) as [[? |] |]; [reflexivity | contradiction | reflexivity].
Qed.

Example drop_trailing_none_middle (encoding : expr) :
  drop_trailing_none [None; Some encoding; None] = [None; Some encoding].
Proof. reflexivity. Qed.

Example drop_trailing_none_all : drop_trailing_none [None; None; None] = [].
Proof. reflexivity. Qed.


End TrailingNone.

Section NodeFacts.

Context {T : Type} {trace : TraceCollection T} {bases : ExpressionBases T}.


(** C5: a bool node whose argument has a known truth value returns the
    constant of that truth value wrapped with the side effects of the
    argument, with the tag [new_constant], and the trace collection as
    it was; with no argument or an unknown truth value it returns what
    [ExpressionBuiltinTypeBase.computeExpression] returns. *)
Theorem bool_computeExpression_truth_value (value : option expr)
    (trace_collection : T) :
  ExpressionBuiltinBool_computeExpression (ExpressionBuiltinBool value) trace_collection
  = match value with
    | Some argument =>
        match getTruthValue argument with
        | Some truth_value =>
            ((wrapExpressionWithNodeSideEffects
                (makeConstantReplacementNode (PyBool truth_value)
                   (ExpressionBuiltinBool value))
                argument,
              Some "new_constant",
              Some "Predicted truth value of built-in bool argument"),
             trace_collection)
        | None =>
            ExpressionBuiltinTypeBase_computeExpression (ExpressionBuiltinBool value)
              trace_collection
        end
    | None =>
        ExpressionBuiltinTypeBase_computeExpression (ExpressionBuiltinBool value)
          trace_collection
    end.
Proof.
  unfold ExpressionBuiltinBool_computeExpression. cbn [getValue].
  destruct value as [argument |]; [| reflexivity].
  destruct (getTruthValue argument); reflexivity.
Qed.

(** C6: a container node over a constant range reference returns itself
    with no change tag and the trace collection as it was when the
    range is longer than 256, and returns what [computeBuiltinSpec]
    returns on the range reference as the one given value when it is
    not. *)
Theorem container_computeExpression_xrange (self value : expr)
    (trace_collection : T) :
  isContainerNode self = true ->
  getValue self = Some value ->
  isExpressionConstantXrangeRef value = true ->
  (256 < getIterationLength value ->
   ExpressionBuiltinContainerBase_computeExpression self trace_collection
   = ((self, None, None), trace_collection)) /\
  (getIterationLength value <= 256 ->
   ExpressionBuiltinContainerBase_computeExpression self trace_collection
   = computeBuiltinSpec self trace_collection [Some value]).
Proof.
  intros _ Hvalue Hxrange.
  unfold ExpressionBuiltinContainerBase_computeExpression.
  rewrite Hvalue, Hxrange.
  split; intros Hlen.
  - apply Z.leb_gt in Hlen. rewrite Hlen. reflexivity.
  - apply Z.leb_le in Hlen. rewrite Hlen. reflexivity.
Qed.


End NodeFacts.

(** ** The nodes on the recording trace collection *)

Section RecordedNodes.

Import Fixtures.

Lemma recording_removeKnowledge_all (args : list (option expr)) (log : list event) :
  fold_left (fun tc arg => removeKnowledge (TraceCollection := recording) arg tc)
    args log
  = (log ++ map RemoveKnowledge args)%list.
Proof.
  revert log. induction args as [| arg args IH]; intros log; cbn.
  - symmetry. apply app_nil_r.
  - rewrite IH, <- app_assoc. reflexivity.
Qed.

(** X17: on the recording trace collection, whatever the builtin spec:
    the log it is consulted with ends in one [RemoveKnowledge] per kept
    child, in order, and one [ControlFlowEscape]. *)
Lemma unicode_computeExpression_recorded (bases : ExpressionBases (list event))
    (self : expr) (log : list event) :
  ExpressionBuiltinUnicodeBase_computeExpression (trace := recording) self log
  = computeBuiltinSpec self
      (log
       ++ map RemoveKnowledge
            (drop_trailing_none [getValue self; getEncoding self; getErrors self])
       ++ [ControlFlowEscape self])%list
      (drop_trailing_none [getValue self; getEncoding self; getErrors self]).
Proof.
  unfold ExpressionBuiltinUnicodeBase_computeExpression.
  rewrite recording_removeKnowledge_all.
  cbn [onControlFlowEscape recording]. rewrite <- app_assoc. reflexivity.
Qed.





Lemma container_computeExpression_xrange_witness :
  ExpressionBuiltinContainerBase_computeExpression
    (bases := unchanging) tuple_of_long_range []
  = ((tuple_of_long_range, None, None), []) /\
  ExpressionBuiltinContainerBase_computeExpression
    (bases := unchanging) tuple_of_short_range []
  = computeBuiltinSpec (ExpressionBases := unchanging) tuple_of_short_range []
      [Some (ExpressionConstantXrangeRef 0 100 1)].
Proof.
  split.
  - apply (container_computeExpression_xrange (bases := unchanging)
             tuple_of_long_range (ExpressionConstantXrangeRef 0 10000 1) []);
      [reflexivity | reflexivity | reflexivity | vm_compute; reflexivity].
  - apply (container_computeExpression_xrange (bases := unchanging)
             tuple_of_short_range (ExpressionConstantXrangeRef 0 100 1) []);
      [reflexivity | reflexivity | reflexivity | vm_compute; discriminate].
Defined.

End RecordedNodes.

(** ** The pool on printable keys *)

Section PrintablePool.

Import Fixtures.

(** C9, the claim as it is written, at [True]: it is among the
    constants [__init__] asks for and has no entry in the list
    [getConstants] returns. *)
Lemma true_has_no_entry :
  PyBool true ∈ always_needed 300 /\
  ~ exists n,
      (key (keys := printable_keys) (PyBool true), n)
      ∈ getConstants (PythonGlobalContext_init (keys := printable_keys) 300).
Proof.
  split.
  - unfold always_needed. do 3 apply list_elem_of_further. apply list_elem_of_here.
  - intros [n Hn]. apply elem_of_getConstants in Hn.
    unfold key in Hn. cbn [type] in Hn.
    rewrite (init_no_bool_key 300) in Hn. discriminate Hn.
Qed.

Lemma getConstantHandle_idempotent_witness :
  handle_name
    (getConstantHandle (keys := printable_keys)
       (internAll [PyInt 7; PyStr "abc"; PyTuple []]
          (getConstantHandle
             {| constants := ∅; eval_orders_used := ∅ |} (PyStr "abc")).2)
       (PyStr "abc")).1
  = handle_name
      (getConstantHandle (keys := printable_keys)
         {| constants := ∅; eval_orders_used := ∅ |} (PyStr "abc")).1.
Proof.
  apply (getConstantHandle_idempotent (keys := printable_keys)
           {| constants := ∅; eval_orders_used := ∅ |}
           (PyStr "abc") (PyStr "abc") [PyInt 7; PyStr "abc"; PyTuple []]).
  - discriminate.
  - reflexivity.
Defined.

End PrintablePool.

(** ** More about the contexts *)

Section ContextTable.

Import Fixtures.

(** X1: a context that has a frame handle has a frame guard answer, and
    the two agree: the handle is [frame_guard.getFrame()] with one
    reference when there is a guard and the generator's [m_frame] with
    none when there is not. *)
Theorem frame_handle_matches_guard (self : context) (handle : identifier) :
  getFrameHandle self = Return handle ->
  exists guard,
    hasFrameGuard self = Return guard /\
    handle = if guard then Identifier "frame_guard.getFrame()" 1
             else Identifier "generator->m_frame" 0.
Proof.
  destruct self as [m | p f | p c | p c | p c | p c | p c | p]; cbn;
    try discriminate.
  - intros [= <-]. exists true. split; reflexivity.
  - destruct (function_isGenerator f); intros [= <-];
      [exists false | exists true]; split; reflexivity.
  - intros [= <-]. exists true. split; reflexivity.
Qed.

Lemma frame_handle_matches_guard_witness :
  exists guard,
    hasFrameGuard (PythonFunctionContext main_module generator_function)
    = Return guard /\
    Identifier "generator->m_frame" 0
    = if guard then Identifier "frame_guard.getFrame()" 1
      else Identifier "generator->m_frame" 0.
Proof.
  apply (frame_handle_matches_guard
           (PythonFunctionContext main_module generator_function)).
  reflexivity.
Defined.

(** X2: in every context but an exec-inline one, a local handle and the
    temporary handle go through a context object together; an
    exec-inline context always has the direct temporary handle, whatever
    its parent's local handle is. *)
Theorem local_and_temp_indirection_agree (self : context) (var_name : string)
    (local : identifier) :
  (forall parent, self <> PythonExecInlineContext parent) ->
  getLocalHandle self var_name = Return local ->
  (exists temp,
     getTempHandle self var_name = Return temp /\
     requiresIndirection temp = requiresIndirection local) /\
  (forall parent,
     getTempHandle (PythonExecInlineContext parent) var_name
     = Return (TempObjectIdentifier var_name "")).
Proof.
  intros Hnot_exec Hlocal. split; [| reflexivity].
  destruct self as [m | p f | p c | p c | p c | p c | p c | p];
    cbn in Hlocal |- *; try discriminate Hlocal.
  - injection Hlocal as <-. eexists. split; [reflexivity |].
    unfold PythonFunctionContext_getTempHandle, PythonFunctionContext_getLocalHandle.
    destruct (function_isGenerator f); reflexivity.
  - injection Hlocal as <-. eexists. split; reflexivity.
  - injection Hlocal as <-. eexists. split; reflexivity.
  - injection Hlocal as <-. eexists. split; reflexivity.
  - injection Hlocal as <-. eexists. split; reflexivity.
  - injection Hlocal as <-. eexists. split; reflexivity.
  - exfalso. exact (Hnot_exec p eq_refl).
Qed.

Lemma local_and_temp_indirection_agree_witness :
  exists temp,
    getTempHandle (PythonFunctionContext main_module generator_function) "x"
    = Return temp /\
    requiresIndirection temp
    = requiresIndirection (LocalVariableIdentifier "x" true).
Proof.
  apply (local_and_temp_indirection_agree
           (PythonFunctionContext main_module generator_function) "x"
           (LocalVariableIdentifier "x" true)).
  - intros parent. discriminate.
  - reflexivity.
Defined.

(** X3: among the contraction contexts the generator expression is the
    one without a frame guard and the one whose local, closure and
    temporary handles all go through a context object; the list, set and
    dict contractions have a frame guard and direct handles.  None of
    them reaches closures through the context. *)
Theorem contraction_contexts_by_kind (self : context) (generator : bool)
    (var_name : string) :
  isGeneratorExpression self = Return generator ->
  hasFrameGuard self = Return (negb generator) /\
  isClosureViaContext self = false /\
  Forall (fun r => indirection r = Some generator) (handles self var_name).
Proof.
  destruct self as [m | p f | p c | p c | p c | p c | p c | p]; cbn;
    try discriminate; intros [= <-];
    (split; [reflexivity | split; [reflexivity | repeat constructor]]).
Qed.

Lemma contraction_contexts_by_kind_witness :
  hasFrameGuard (PythonGeneratorExpressionContext main_module a_contraction)
  = Return false /\
  isClosureViaContext (PythonGeneratorExpressionContext main_module a_contraction)
  = false /\
  Forall (fun r => indirection r = Some true)
    (handles (PythonGeneratorExpressionContext main_module a_contraction) "x").
Proof.
  apply (contraction_contexts_by_kind
           (PythonGeneratorExpressionContext main_module a_contraction) true "x").
  reflexivity.
Defined.

(** X4: through any number of exec-inline contexts stacked on a context,
    [getLocalHandle], [canHaveLocalVariables], [hasLocalsDict] and the
    module names are those of that context, and with at least one
    exec-inline context [getClosureHandle] is its [getLocalHandle]. *)
Theorem exec_inline_nest_transparent (n : nat) (parent : context)
    (var_name : string) :
  getLocalHandle (exec_inline_nest n parent) var_name
    = getLocalHandle parent var_name /\
  getClosureHandle (exec_inline_nest (S n) parent) var_name
    = getLocalHandle parent var_name /\
  canHaveLocalVariables (exec_inline_nest n parent)
    = canHaveLocalVariables parent /\
  hasLocalsDict (exec_inline_nest n parent) = hasLocalsDict parent /\
  getModuleName (exec_inline_nest n parent) = getModuleName parent /\
  getModuleCodeName (exec_inline_nest n parent) = getModuleCodeName parent.
Proof.
  assert (Hname : getModuleName (exec_inline_nest n parent) = getModuleName parent)
    by (induction n as [| n IH]; [reflexivity | exact IH]).
  assert (Hcode : getModuleCodeName (exec_inline_nest n parent)
                  = getModuleCodeName parent)
    by (clear Hname; induction n as [| n IH]; [reflexivity | exact IH]).
  destruct (exec_inline_nest_delegates n parent var_name) as (Hlocal & Hcan & Hdict).
  split; [exact Hlocal |]. split; [apply exec_inline_nest_closure |]. auto.
Qed.

Lemma replace_module_of (self : context) (module : PythonModuleContext) :
  module_of (replace_module self module) = module.
Proof. induction self; cbn; auto. Qed.

Lemma context_addCodes_forwarded kind (self : context) code_name decl code :
  context_addCodes kind self code_name decl code
  = (module ← addCodes kind (module_of self) code_name decl code;
     Return (replace_module self module)).
Proof.
  induction self as [m | p IH f | p IH c | p IH c | p IH c | p IH c | p IH c | p IH];
    cbn [context_addCodes module_of replace_module];
    [reflexivity | rewrite IH; destruct (addCodes kind (module_of p) code_name decl code);
                   reflexivity ..].
Qed.

Lemma getModuleName_of (self : context) :
  getModuleName self = name (module_of self) /\
  getModuleCodeName self = code_name (module_of self).
Proof. induction self; cbn; auto. Qed.

Lemma addCodes_names kind (self after : PythonModuleContext) code decl body :
  addCodes kind self code decl body = Return after ->
  name after = name self /\ code_name after = code_name self.
Proof.
  destruct kind; cbn;
    unfold addFunctionCodes, addContractionCodes, addClassCodes;
    [destruct (assert (not_in code (function_codes self)))
    | destruct (assert (not_in code (contraction_codes self)))
    | destruct (assert (not_in code (class_codes self)))];
    cbn; intros [= <-]; split; reflexivity.
Qed.

(** X5: registering code through any context is registering it at the
    module context its chain of parents ends in: under a free code name
    the pair is stored there, the chain of contexts and the module
    names stay as they were, and under a taken code name the call
    raises [AssertionError] as it does on the module context. *)
Theorem context_addCodes_reaches_module kind (self : context)
    code_name decl code :
  match getCodes kind (module_of self) !! code_name with
  | None =>
      exists module,
        addCodes kind (module_of self) code_name decl code = Return module /\
        context_addCodes kind self code_name decl code
        = Return (replace_module self module) /\
        getCodes kind (module_of (replace_module self module)) !! code_name
        = Some (decl, code) /\
        getModuleName (replace_module self module) = getModuleName self /\
        getModuleCodeName (replace_module self module) = getModuleCodeName self
  | Some _ =>
      context_addCodes kind self code_name decl code = Raise AssertionError
  end.
Proof.
  rewrite context_addCodes_forwarded.
  destruct (getCodes kind (module_of self) !! code_name) as [stored |] eqn:Hlookup.
  - rewrite (addCodes_taken _ _ _ decl code _ Hlookup). reflexivity.
  - destruct (addCodes_free _ _ _ decl code Hlookup) as (module & Hret & Hcodes).
    exists module. rewrite Hret. split; [reflexivity |]. split; [reflexivity |].
    rewrite replace_module_of, Hcodes, lookup_insert_eq.
    split; [reflexivity |].
    destruct (addCodes_names _ _ _ _ _ _ Hret) as [Hname Hcode].
    destruct (getModuleName_of self) as [-> ->].
    destruct (getModuleName_of (replace_module self module)) as [-> ->].
    rewrite replace_module_of. auto.
Qed.

End ContextTable.

(** ** More about counters and registration *)

Section CountersAndCodes.

Import Fixtures.

Lemma allocate_spec kind (self : PythonContextBase) :
  (allocate kind self).1 = counter kind self + 1 /\
  counter kind (allocate kind self).2 = counter kind self + 1 /\
  forall other, other <> kind ->
    counter other (allocate kind self).2 = counter other self.
Proof.
  destruct kind; cbn; (split; [reflexivity | split; [reflexivity |]]);
    intros []; cbn; congruence.
Qed.

Lemma allocateAll_cons kind kinds (self : PythonContextBase) :
  allocateAll (kind :: kinds) self
  = ((kind, (allocate kind self).1) :: (allocateAll kinds (allocate kind self).2).1,
     (allocateAll kinds (allocate kind self).2).2).
Proof.
  cbn [allocateAll]. destruct (allocate kind self) as [number after]. cbn.
  destruct (allocateAll kinds after). reflexivity.
Qed.

(** X6: in a run of allocations on one context, each counter ends
    higher by the number of allocations of its kind, every number handed
    out lies above the counter's start and at most at its end, and no
    number is handed out twice for one kind. *)
Theorem allocateAll_numbers (kinds : list counter_kind) (self : PythonContextBase) :
  NoDup (allocateAll kinds self).1 /\
  (forall kind,
     counter kind (allocateAll kinds self).2
     = counter kind self + Z.of_nat (length (filter (fun k => k = kind) kinds))) /\
  (forall kind number,
     (kind, number) ∈ (allocateAll kinds self).1 ->
     counter kind self < number <= counter kind (allocateAll kinds self).2).
Proof.
  revert self. induction kinds as [| k kinds IH]; intros self.
  - cbn. split; [constructor |]. split; [intros kind; lia |].
    intros kind number Hin. inversion Hin.
  - rewrite allocateAll_cons. cbn [fst snd].
    destruct (allocate_spec k self) as (Hnumber & Hcounter & Hothers).
    destruct (IH (allocate k self).2) as (Hnodup & Hend & Hrange).
    assert (Hstep : forall kind,
              counter kind self <= counter kind (allocate k self).2).
    { intros kind. destruct (decide (kind = k)) as [-> | Hne].
      - lia.
      - rewrite (Hothers kind Hne). lia. }
    split; [| split].
    + constructor; [| exact Hnodup].
      intros Hin. apply Hrange in Hin. lia.
    + intros kind. rewrite Hend, filter_cons.
      destruct (decide (k = kind)) as [-> | Hne].
      * rewrite Hcounter. cbn [length]. lia.
      * rewrite (Hothers kind (not_eq_sym Hne)). reflexivity.
    + intros kind number Hin.
      apply elem_of_cons in Hin as [[= -> ->] | Hin].
      * rewrite Hnumber. specialize (Hend k).
        pose proof (Hrange k) as _. lia.
      * specialize (Hrange kind number Hin). specialize (Hstep kind). lia.
Qed.

(** X7: registering a pair under one kind leaves the pairs of the two
    other kinds, the recorded global variable names and the counters as
    they were; a code name taken for one kind stays free for the
    others. *)
Theorem addCodes_kinds_independent kind other (self after : PythonModuleContext)
    code_name decl body :
  other <> kind ->
  addCodes kind self code_name decl body = Return after ->
  getCodes other after = getCodes other self /\
  global_var_names after = global_var_names self /\
  base after = base self.
Proof.
  intros Hother.
  destruct kind, other; try congruence; cbn;
    unfold addFunctionCodes, addContractionCodes, addClassCodes;
    match goal with
    | |- context [assert ?cond] => destruct (assert cond)
    end; cbn; intros [= <-]; repeat split.
Qed.

Lemma addCodes_kinds_independent_witness :
  exists after again,
    addCodes FunctionCodes (PythonModuleContext_init "m" "module_m" "m.py")
      "code_1" "decl" "body" = Return after /\
    getCodes ClassCodes after
    = getCodes ClassCodes (PythonModuleContext_init "m" "module_m" "m.py") /\
    addCodes ClassCodes after "code_1" "class decl" "class body" = Return again.
Proof.
  eexists _, _. split; [reflexivity |]. split; [| reflexivity].
  apply (addCodes_kinds_independent FunctionCodes ClassCodes
           (PythonModuleContext_init "m" "module_m" "m.py") _
           "code_1" "decl" "body").
  - discriminate.
  - reflexivity.
Defined.

Lemma addCodesAll_cons kind code_name decl body entries (self : PythonModuleContext) :
  addCodesAll kind ((code_name, (decl, body)) :: entries) self
  = (after ← addCodes kind self code_name decl body; addCodesAll kind entries after).
Proof. reflexivity. Qed.

Lemma addCodesAll_free kind entries (self : PythonModuleContext) :
  NoDup entries.*1 ->
  Forall (fun n => getCodes kind self !! n = None) entries.*1 ->
  exists after,
    addCodesAll kind entries self = Return after /\
    getCodes kind after = list_to_map entries ∪ getCodes kind self.
Proof.
  revert self. induction entries as [| [n [d b]] entries IH]; intros self Hnodup Hfree.
  - exists self. split; [reflexivity |]. cbn. symmetry. apply (left_id ∅ (∪)).
  - cbn [fmap list_fmap fst] in Hnodup, Hfree.
    apply NoDup_cons in Hnodup as [Hfresh Hnodup].
    apply Forall_cons in Hfree as [Hn Hfree].
    destruct (addCodes_free kind self n d b Hn) as (after1 & Hret & Hcodes).
    destruct (IH after1 Hnodup) as (after & Hall & Hfinal).
    { apply Forall_forall. intros n' Hin. rewrite Hcodes.
      rewrite lookup_insert_ne by (intros ->; contradiction).
      exact (proj1 (Forall_forall _ _) Hfree n' Hin). }
    exists after. rewrite addCodesAll_cons, Hret. split; [exact Hall |].
    rewrite Hfinal, Hcodes. cbn [list_to_map foldr].
    rewrite <- insert_union_l. symmetry. apply insert_union_r.
    apply not_elem_of_list_to_map. exact Hfresh.
Qed.

Lemma addCodesAll_taken kind entries (self : PythonModuleContext) :
  ~ (NoDup entries.*1 /\
     Forall (fun n => getCodes kind self !! n = None) entries.*1) ->
  addCodesAll kind entries self = Raise AssertionError.
Proof.
  revert self. induction entries as [| [n [d b]] entries IH]; intros self Hnot.
  - exfalso. apply Hnot. split; constructor.
  - rewrite addCodesAll_cons.
    destruct (getCodes kind self !! n) as [stored |] eqn:Hn.
    + rewrite (addCodes_taken _ _ _ d b _ Hn). reflexivity.
    + destruct (addCodes_free kind self n d b Hn) as (after1 & Hret & Hcodes).
      rewrite Hret. cbn. apply IH. intros [Hnodup Hfree]. apply Hnot.
      cbn [fmap list_fmap fst].
      assert (Hrest : forall n', n' ∈ entries.*1 ->
                n' <> n /\ getCodes kind self !! n' = None).
      { intros n' Hin.
        pose proof (proj1 (Forall_forall _ _) Hfree n' Hin) as Hn'.
        rewrite Hcodes in Hn'.
        destruct (decide (n = n')) as [-> | Hne].
        - rewrite lookup_insert_eq in Hn'. discriminate Hn'.
        - rewrite lookup_insert_ne in Hn' by exact Hne. auto. }
      split.
      * apply NoDup_cons. split; [| exact Hnodup].
        intros Hin. destruct (Hrest n Hin) as [Hne _]. congruence.
      * apply Forall_cons. split; [exact Hn |].
        apply Forall_forall. intros n' Hin. apply Hrest, Hin.
Qed.

(** X8: a run of registrations of one kind goes through exactly when
    the code names are pairwise different and all free in the module
    context; the context then holds the new pairs beside the old ones,
    whatever the order of the run.  Otherwise the run raises
    [AssertionError]. *)
Theorem addCodesAll_succeeds_iff_fresh kind
    (entries : list (string * (string * string))) (self : PythonModuleContext) :
  (NoDup entries.*1 ->
   Forall (fun n => getCodes kind self !! n = None) entries.*1 ->
   exists after,
     addCodesAll kind entries self = Return after /\
     getCodes kind after = list_to_map entries ∪ getCodes kind self) /\
  (~ (NoDup entries.*1 /\
      Forall (fun n => getCodes kind self !! n = None) entries.*1) ->
   addCodesAll kind entries self = Raise AssertionError).
Proof.
  split; [apply addCodesAll_free | apply addCodesAll_taken].
Qed.

Lemma addCodesAll_succeeds_iff_fresh_witness :
  (exists after,
     addCodesAll FunctionCodes
       [("f_1", ("decl 1", "body 1")); ("f_2", ("decl 2", "body 2"))]
       (PythonModuleContext_init "m" "module_m" "m.py") = Return after /\
     getCodes FunctionCodes after
     = list_to_map [("f_1", ("decl 1", "body 1")); ("f_2", ("decl 2", "body 2"))]
       ∪ getCodes FunctionCodes (PythonModuleContext_init "m" "module_m" "m.py")) /\
  addCodesAll FunctionCodes
    [("f_1", ("decl 1", "body 1")); ("f_1", ("decl 2", "body 2"))]
    (PythonModuleContext_init "m" "module_m" "m.py") = Raise AssertionError.
Proof.
  split.
  - apply (proj1 (addCodesAll_succeeds_iff_fresh FunctionCodes
                    [("f_1", ("decl 1", "body 1")); ("f_2", ("decl 2", "body 2"))]
                    (PythonModuleContext_init "m" "module_m" "m.py"))).
    + cbn. apply NoDup_cons. split; [| apply NoDup_singleton].
      intros Hin. apply list_elem_of_singleton in Hin. discriminate Hin.
    + repeat constructor.
  - apply (proj2 (addCodesAll_succeeds_iff_fresh FunctionCodes
                    [("f_1", ("decl 1", "body 1")); ("f_1", ("decl 2", "body 2"))]
                    (PythonModuleContext_init "m" "module_m" "m.py"))).
    intros [Hnodup _]. cbn in Hnodup.
    apply NoDup_cons in Hnodup as [Hfresh _]. apply Hfresh. constructor.
Defined.

End CountersAndCodes.

(** ** More about the constant pool *)

Section StringOrder.

Lemma string_compare_trans (s1 s2 s3 : string) :
  String.compare s1 s2 <> Gt -> String.compare s2 s3 <> Gt ->
  String.compare s1 s3 <> Gt.
Proof.
  revert s2 s3. induction s1 as [| a s1 IH]; intros [| b s2] [| c s3]; cbn;
    try congruence.
  unfold Ascii.compare.
  destruct (N.compare_spec (Ascii.N_of_ascii a) (Ascii.N_of_ascii b)) as [Hab | Hab | Hab];
    destruct (N.compare_spec (Ascii.N_of_ascii b) (Ascii.N_of_ascii c)) as [Hbc | Hbc | Hbc];
    destruct (N.compare_spec (Ascii.N_of_ascii a) (Ascii.N_of_ascii c)) as [Hac | Hac | Hac];
    try congruence; try lia.
  apply IH.
Qed.

Lemma string_leb_trans (s1 s2 s3 : string) :
  String.leb s1 s2 = true -> String.leb s2 s3 = true -> String.leb s1 s3 = true.
Proof.
  unfold String.leb. intros H12 H23.
  pose proof (string_compare_trans s1 s2 s3) as Htrans.
  destruct (String.compare s1 s2), (String.compare s2 s3), (String.compare s1 s3);
    cbn in *; try reflexivity; try congruence; exfalso; apply Htrans; congruence.
Qed.

End StringOrder.

Section PoolMore.

Context {keys : ConstantKeys}.

#[local] Instance by_name_total : Total by_name.
Proof.
  intros x y. unfold by_name.
  destruct (String.leb_total x.2 y.2) as [Hle | Hle]; rewrite Hle; cbn; auto.
Qed.

#[local] Instance by_name_trans : Transitive by_name.
Proof.
  intros x y z. unfold by_name. intros Hxy Hyz.
  apply Is_true_true in Hxy, Hyz. apply Is_true_true.
  exact (string_leb_trans _ _ _ Hxy Hyz).
Qed.

Lemma getConstantHandle_hit (self : PythonGlobalContext) c n :
  pooled c = true ->
  constants self !! key c = Some n ->
  getConstantHandle self c = (ConstantIdentifier n c, self).
Proof.
  intros Hpooled Hentry.
  destruct c as [| [] | | | | | | |]; try discriminate Hpooled; cbn;
    rewrite Hentry; cbn; unfold lookup_total, map_lookup_total;
    rewrite Hentry; reflexivity.
Qed.

Lemma getConstantHandle_miss (self : PythonGlobalContext) c :
  pooled c = true ->
  constants self !! key c = None ->
  getConstantHandle self c
  = (ConstantIdentifier ("_python_" ++ namifyConstant c) c,
     {| constants := <[key c := "_python_" ++ namifyConstant c]> (constants self);
        eval_orders_used := eval_orders_used self |}).
Proof.
  intros Hpooled Hentry.
  destruct c as [| [] | | | | | | |]; try discriminate Hpooled; cbn;
    rewrite Hentry; cbn; unfold lookup_total, map_lookup_total;
    rewrite lookup_insert_eq; reflexivity.
Qed.

Lemma getConstantHandle_unpooled (self : PythonGlobalContext) c :
  pooled c = false -> (getConstantHandle self c).2 = self.
Proof. destruct c as [| [] | | | | | | |]; intros Hp; try discriminate Hp; reflexivity. Qed.

(** X9: asking for a constant a second time, right after the first,
    returns the very same handle and leaves the pool as the first call
    left it. *)
Theorem getConstantHandle_twice (self : PythonGlobalContext) (c : constant) :
  getConstantHandle (getConstantHandle self c).2 c = getConstantHandle self c.
Proof.
  destruct (pooled c) eqn:Hpooled.
  - destruct (constants self !! key c) as [n |] eqn:Hentry.
    + rewrite (getConstantHandle_hit self c n Hpooled Hentry). cbn.
      apply getConstantHandle_hit; assumption.
    + rewrite (getConstantHandle_miss self c Hpooled Hentry). cbn.
      apply getConstantHandle_hit; [exact Hpooled |]. cbn. apply lookup_insert_eq.
  - rewrite (getConstantHandle_unpooled self c Hpooled). reflexivity.
Qed.

Lemma dom_getConstantHandle (self : PythonGlobalContext) c :
  dom (constants (getConstantHandle self c).2)
  = (if pooled c then {[ key c ]} else ∅) ∪ dom (constants self).
Proof.
  destruct (pooled c) eqn:Hpooled.
  - destruct (constants self !! key c) as [n |] eqn:Hentry.
    + rewrite (getConstantHandle_hit self c n Hpooled Hentry). cbn.
      apply (elem_of_dom_2 (D := gset _)) in Hentry. set_solver.
    + rewrite (getConstantHandle_miss self c Hpooled Hentry). cbn.
      apply dom_insert_L.
  - rewrite (getConstantHandle_unpooled self c Hpooled). set_solver.
Qed.

(** X10: after any run of calls the keys of the table are the keys it
    had before together with the keys of the constants asked for, the
    four singletons left out; so the set of keys does not depend on the
    order of the calls or on repetitions. *)
Theorem dom_internAll (cs : list constant) (self : PythonGlobalContext) :
  dom (constants (internAll cs self))
  = dom (constants self)
    ∪ list_to_set (key <$> filter (fun c => pooled c = true) cs).
Proof.
  revert self. induction cs as [| c cs IH]; intros self.
  - cbn. set_solver.
  - cbn [internAll fold_left]. fold (internAll cs (getConstantHandle self c).2).
    rewrite IH, dom_getConstantHandle, filter_cons.
    destruct (pooled c) eqn:Hpooled.
    + rewrite decide_True by reflexivity. cbn. set_solver.
    + rewrite decide_False by discriminate. set_solver.
Qed.

Lemma getConstantHandle_none_elsewhere (self : PythonGlobalContext) c k :
  constants self !! k = None ->
  (pooled c = true -> key c <> k) ->
  constants (getConstantHandle self c).2 !! k = None.
Proof.
  intros Hnone Hkey.
  destruct (pooled c) eqn:Hpooled.
  - destruct (constants self !! key c) as [n |] eqn:Hentry.
    + rewrite (getConstantHandle_hit self c n Hpooled Hentry). exact Hnone.
    + rewrite (getConstantHandle_miss self c Hpooled Hentry). cbn.
      rewrite lookup_insert_ne by auto. exact Hnone.
  - rewrite (getConstantHandle_unpooled self c Hpooled). exact Hnone.
Qed.

(** X11: an entry that a run of calls has added to the table carries
    the name [_python_] followed by [namifyConstant] of the first
    constant of the run that has this key; that constant is none of the
    four singletons. *)
Theorem internAll_names (cs : list constant) (self : PythonGlobalContext)
    (k : pytype * hashable) (n : string) :
  constants self !! k = None ->
  constants (internAll cs self) !! k = Some n ->
  exists before c after,
    cs = (before ++ c :: after)%list /\
    pooled c = true /\
    key c = k /\
    n = "_python_" ++ namifyConstant c /\
    Forall (fun c' => pooled c' = true -> key c' <> k) before.
Proof.
  revert self. induction cs as [| c cs IH]; intros self Hnone Hentry.
  - cbn in Hentry. congruence.
  - cbn [internAll fold_left] in Hentry.
    fold (internAll cs (getConstantHandle self c).2) in Hentry.
    destruct (decide (pooled c = true /\ key c = k)) as [[Hpooled <-] | Hother].
    + exists [], c, cs. split; [reflexivity |]. split; [exact Hpooled |].
      split; [reflexivity |]. split; [| constructor].
      pose proof (getConstantHandle_miss self c Hpooled Hnone) as Hmiss.
      assert (Hfirst : constants (getConstantHandle self c).2 !! key c
                       = Some ("_python_" ++ namifyConstant c))
        by (rewrite Hmiss; cbn; apply lookup_insert_eq).
      rewrite (internAll_keeps cs _ _ _ Hfirst) in Hentry. congruence.
    + assert (Hkey : pooled c = true -> key c <> k) by (intros Hp Hk; auto).
      destruct (IH _ (getConstantHandle_none_elsewhere self c k Hnone Hkey) Hentry)
        as (before & c' & after & -> & Hpooled & Hk & Hn & Hbefore).
      exists (c :: before), c', after.
      split; [reflexivity |]. split; [exact Hpooled |]. split; [exact Hk |].
      split; [exact Hn |]. constructor; assumption.
Qed.

(** X12: [getConstants] returns every entry of the table exactly once,
    in the order of the names: the list is a permutation of the
    entries, no key comes twice, there are as many elements as entries,
    and each name is at most every later one. *)
Theorem getConstants_sorted (self : PythonGlobalContext) :
  getConstants self ≡ₚ map_to_list (constants self) /\
  NoDup (getConstants self).*1 /\
  length (getConstants self) = size (constants self) /\
  StronglySorted by_name (getConstants self).
Proof.
  assert (Hperm : getConstants self ≡ₚ map_to_list (constants self))
    by apply merge_sort_Permutation.
  split; [exact Hperm |]. split; [| split].
  - rewrite Hperm. apply NoDup_fst_map_to_list.
  - rewrite Hperm. apply length_map_to_list.
  - apply StronglySorted_merge_sort; apply _.
Qed.






Lemma context_getConstantHandle_global (self : context)
    (global_context : PythonGlobalContext) c :
  context_getConstantHandle self global_context c
  = getConstantHandle global_context c.
Proof. induction self; cbn; auto. Qed.

(** X14: building a function context asks for every local variable name
    as a constant: afterwards each name the context answers
    [hasLocalVariable] for with true has its entry in the table, asking
    for it again changes nothing, and every entry the table had is
    still there. *)
Theorem PythonFunctionContext_init_interns_locals (parent : context)
    (function : function_node) (global_context : PythonGlobalContext)
    (var_name : string) :
  hasLocalVariable (PythonFunctionContext_init parent function global_context).1
    var_name = Return true ->
  is_Some (constants (PythonFunctionContext_init parent function global_context).2
             !! key (PyStr var_name)) /\
  (context_getConstantHandle
     (PythonFunctionContext_init parent function global_context).1
     (PythonFunctionContext_init parent function global_context).2
     (PyStr var_name)).2
  = (PythonFunctionContext_init parent function global_context).2 /\
  (forall k n,
     constants global_context !! k = Some n ->
     constants (PythonFunctionContext_init parent function global_context).2 !! k
     = Some n).
Proof.
  unfold PythonFunctionContext_init. cbn [fst snd hasLocalVariable].
  intros [= Hlocal]. apply bool_decide_eq_true in Hlocal.
  assert (Hrun : forall names pool,
            fold_left
              (fun pool local_name =>
                 (context_getConstantHandle (PythonFunctionContext parent function)
                    pool (PyStr local_name)).2) names pool
            = internAll (PyStr <$> names) pool).
  { induction names as [| name names IH]; intros pool; [reflexivity |].
    cbn [fold_left fmap list_fmap internAll].
    rewrite IH, context_getConstantHandle_global. reflexivity. }
  rewrite Hrun.
  assert (Hentry : is_Some
            (constants
               (internAll (PyStr <$> function_getLocalVariableNames function)
                  global_context) !! key (PyStr var_name))).
  { apply internAll_registers; [| reflexivity].
    apply list_elem_of_fmap. exists var_name. auto. }
  split; [exact Hentry |]. split.
  - rewrite context_getConstantHandle_global.
    destruct Hentry as [n Hn].
    rewrite (getConstantHandle_hit _ (PyStr var_name) n eq_refl Hn). reflexivity.
  - intros k n. apply internAll_keeps.
Qed.

End PoolMore.

(** ** More about the elision of absent arguments *)

Section TrailingNoneMore.

Import Fixtures.

Lemma drop_trailing_none_snoc (args : list (option expr)) :
  drop_trailing_none (args ++ [None]) = drop_trailing_none args.
Proof.
  unfold drop_trailing_none. rewrite length_app, Nat.add_comm.
  cbn [length Nat.add drop_trailing_none_loop].
  rewrite last_snoc, removelast_last. reflexivity.
Qed.

(** X15: the elision returns the one list that does not end in [None]
    and that the arguments extend by [None]s only; eliding a second time
    changes nothing. *)
Theorem drop_trailing_none_unique (kept : list (option expr)) (dropped : nat) :
  last kept <> Some None ->
  drop_trailing_none (kept ++ replicate dropped None) = kept /\
  drop_trailing_none (drop_trailing_none (kept ++ replicate dropped None))
  = drop_trailing_none (kept ++ replicate dropped None).
Proof.
  intros Hend.
  assert (Hkept : drop_trailing_none (kept ++ replicate dropped None) = kept).
  { induction dropped as [| dropped IH].
    - cbn. rewrite app_nil_r. apply drop_trailing_none_id, Hend.
    - rewrite replicate_S_end, app_assoc, drop_trailing_none_snoc. exact IH. }
  rewrite Hkept. split; [reflexivity |]. apply drop_trailing_none_id, Hend.
Qed.

Lemma drop_trailing_none_unique_witness :
  drop_trailing_none
    ([None; Some (ExpressionConstantRef (PyStr "utf-8"))] ++ replicate 1 None)
  = [None; Some (ExpressionConstantRef (PyStr "utf-8"))].
Proof.
  apply (drop_trailing_none_unique
           [None; Some (ExpressionConstantRef (PyStr "utf-8"))] 1).
  cbn. discriminate.
Defined.

(** X16: the elision loses no argument that is present: the arguments
    that are not [None] are the same before and after, in the same
    order, and what is kept is a prefix of the arguments. *)
Theorem drop_trailing_none_keeps_arguments (args : list (option expr)) :
  omap id (drop_trailing_none args) = omap id args /\
  drop_trailing_none args `prefix_of` args /\
  (length (drop_trailing_none args) <= length args)%nat.
Proof.
  destruct (drop_trailing_none_spec args) as [_ [dropped Hsplit]].
  assert (Hnone : omap id (replicate dropped (@None expr)) = []).
  { clear Hsplit. induction dropped as [| dropped IH]; [reflexivity | exact IH]. }
  split; [| split].
  - rewrite Hsplit at 2. rewrite omap_app, Hnone, app_nil_r. reflexivity.
  - exists (replicate dropped None). exact Hsplit.
  - rewrite Hsplit at 2. rewrite length_app. lia.
Qed.

End TrailingNoneMore.

(** ** Witnesses on printable keys *)

Section PrintablePoolMore.

Import Fixtures.

Lemma internAll_names_witness :
  exists before c after,
    [PyBool true; PyStr "a"; PyInt 1; PyStr "a"] = (before ++ c :: after)%list /\
    pooled c = true /\
    key (keys := printable_keys) c = key (keys := printable_keys) (PyStr "a") /\
    "_python_4_'a'" = "_python_" ++ namifyConstant (ConstantKeys := printable_keys) c /\
    Forall (fun c' => pooled c' = true ->
                      key (keys := printable_keys) c'
                      <> key (keys := printable_keys) (PyStr "a")) before.
Proof.
  apply (internAll_names (keys := printable_keys)
           [PyBool true; PyStr "a"; PyInt 1; PyStr "a"]
           {| constants := ∅; eval_orders_used := ∅ |}
           (key (keys := printable_keys) (PyStr "a")) "_python_4_'a'").
  - reflexivity.
  - vm_compute. reflexivity.
Defined.

Lemma PythonFunctionContext_init_interns_locals_witness :
  is_Some
    (constants
       (PythonFunctionContext_init (keys := printable_keys) main_module plain_function
          {| constants := ∅; eval_orders_used := ∅ |}).2
     !! key (keys := printable_keys) (PyStr "x")).
Proof.
  apply (PythonFunctionContext_init_interns_locals (keys := printable_keys)
           main_module plain_function
           {| constants := ∅; eval_orders_used := ∅ |} "x").
  reflexivity.
Defined.

End PrintablePoolMore.
